(** * The DQN agent of acme/agents/jax/dqn/agent.py

    The module wires a replay server, a learner and an actor into one agent.
    Python objects live in a store and are passed by reference, so the
    embedding threads a store of objects through every constructor call and
    sharing is equality of store locations. *)

From Stdlib Require Import ZArith String Floats.
From stdpp Require Import base option list.

Set Default Proof Using "Type".
Set Warnings "-inexact-float,-register-all".

(** ** Numbers

    Python [int] is [Z]; Python [float] is IEEE binary64, the kernel's
    primitive [float]. *)

Inductive exn : Set :=
  | ZeroDivisionError
  | OverflowError
  | AttributeError
  | FrozenInstanceError
  | ExternalError.

Inductive result (A : Type) : Type :=
  | Ok (a : A)
  | Raise (e : exn).
Arguments Ok {A} a.
Arguments Raise {A} e.

(** [float(z)]: round to nearest even; a value beyond the largest finite
    float raises [OverflowError]. *)
Definition float_of_int (z : Z) : result float :=
  let f := SF2Prim (binary_normalize prec emax z 0 false) in
  if is_infinity f then Raise OverflowError else Ok f.

(** [a / b] for an [int] [a] and a [float] [b]: the integer is converted
    first, then a zero divisor (of either sign) raises. *)
Definition truediv (a : Z) (b : float) : result float :=
  match float_of_int a with
  | Raise e => Raise e
  | Ok x => if (b =? 0)%float then Raise ZeroDivisionError else Ok (x / b)%float
  end.

(** ** The configuration record *)

Record DQNConfig : Set := {
  epsilon : float;
  samples_per_insert : float;
  seed : Z;
  learning_rate : float;
  discount : float;
  n_step : Z;
  target_update_period : Z;
  max_gradient_norm : float;
  batch_size : Z;
  min_replay_size : Z;
  max_replay_size : Z;
  importance_sampling_exponent : float;
  priority_exponent : float;
  prefetch_size : Z;
}.

(** The keywords of the generated [DQNConfig.__init__]: a keyword that is not
    passed is [None] and takes the field's default. *)
Record DQNConfig_kwargs : Set := {
  k_epsilon : option float;
  k_samples_per_insert : option float;
  k_seed : option Z;
  k_learning_rate : option float;
  k_discount : option float;
  k_n_step : option Z;
  k_target_update_period : option Z;
  k_max_gradient_norm : option float;
  k_batch_size : option Z;
  k_min_replay_size : option Z;
  k_max_replay_size : option Z;
  k_importance_sampling_exponent : option float;
  k_priority_exponent : option float;
  k_prefetch_size : option Z;
}.

Definition DQNConfig_init (kw : DQNConfig_kwargs) : DQNConfig := {|
  epsilon := default 0.05%float (k_epsilon kw);
  samples_per_insert := default 0.5%float (k_samples_per_insert kw);
  seed := default 1%Z (k_seed kw);
  learning_rate := default 1e-3%float (k_learning_rate kw);
  discount := default 0.99%float (k_discount kw);
  n_step := default 5%Z (k_n_step kw);
  target_update_period := default 100%Z (k_target_update_period kw);
  max_gradient_norm := default infinity (k_max_gradient_norm kw);
  batch_size := default 256%Z (k_batch_size kw);
  min_replay_size := default 1000%Z (k_min_replay_size kw);
  max_replay_size := default 1000000%Z (k_max_replay_size kw);
  importance_sampling_exponent :=
    default 0.2%float (k_importance_sampling_exponent kw);
  priority_exponent := default 0.6%float (k_priority_exponent kw);
  prefetch_size := default 4%Z (k_prefetch_size kw);
|}.

Definition no_kwargs : DQNConfig_kwargs :=
  Build_DQNConfig_kwargs None None None None None None None
                         None None None None None None None.

(** [@dataclasses.dataclass] is applied without arguments, so every option of
    the decorator has its default; [frozen] is the one that governs attribute
    assignment. *)
Record dataclass_params : Set := { frozen : bool }.
Definition dataclass_defaults : dataclass_params := {| frozen := false |}.
Definition DQNConfig_dataclass : dataclass_params := dataclass_defaults.

(** An attribute assignment [config.<field> = v]. *)
Inductive assignment : Set :=
  | set_epsilon (v : float)
  | set_samples_per_insert (v : float)
  | set_seed (v : Z)
  | set_learning_rate (v : float)
  | set_discount (v : float)
  | set_n_step (v : Z)
  | set_target_update_period (v : Z)
  | set_max_gradient_norm (v : float)
  | set_batch_size (v : Z)
  | set_min_replay_size (v : Z)
  | set_max_replay_size (v : Z)
  | set_importance_sampling_exponent (v : float)
  | set_priority_exponent (v : float)
  | set_prefetch_size (v : Z).

Definition assign (a : assignment) (c : DQNConfig) : DQNConfig :=
  let '(Build_DQNConfig e spi sd lr d n tup mgn b mn mx ise pe pf) := c in
  match a with
  | set_epsilon v => Build_DQNConfig v spi sd lr d n tup mgn b mn mx ise pe pf
  | set_samples_per_insert v =>
      Build_DQNConfig e v sd lr d n tup mgn b mn mx ise pe pf
  | set_seed v => Build_DQNConfig e spi v lr d n tup mgn b mn mx ise pe pf
  | set_learning_rate v =>
      Build_DQNConfig e spi sd v d n tup mgn b mn mx ise pe pf
  | set_discount v => Build_DQNConfig e spi sd lr v n tup mgn b mn mx ise pe pf
  | set_n_step v => Build_DQNConfig e spi sd lr d v tup mgn b mn mx ise pe pf
  | set_target_update_period v =>
      Build_DQNConfig e spi sd lr d n v mgn b mn mx ise pe pf
  | set_max_gradient_norm v =>
      Build_DQNConfig e spi sd lr d n tup v b mn mx ise pe pf
  | set_batch_size v =>
      Build_DQNConfig e spi sd lr d n tup mgn v mn mx ise pe pf
  | set_min_replay_size v =>
      Build_DQNConfig e spi sd lr d n tup mgn b v mx ise pe pf
  | set_max_replay_size v =>
      Build_DQNConfig e spi sd lr d n tup mgn b mn v ise pe pf
  | set_importance_sampling_exponent v =>
      Build_DQNConfig e spi sd lr d n tup mgn b mn mx v pe pf
  | set_priority_exponent v =>
      Build_DQNConfig e spi sd lr d n tup mgn b mn mx ise v pf
  | set_prefetch_size v =>
      Build_DQNConfig e spi sd lr d n tup mgn b mn mx ise pe v
  end.

(** ** The optimizer: [optax] gradient transformations as terms *)

Inductive GradientTransformation : Set :=
  | clip_by_global_norm (max_norm : float)
  | adam (lr : float)
  | chain (ts : list GradientTransformation).

(** ** The store *)

(** A location is an index of the store. *)
Abbreviation loc := nat.

Section Objects.
Context {EnvironmentSpec ObsSpec Network : Type}.

(** The arguments [DQNFromConfig] passes to
    [make_reverb_prioritized_nstep_replay]. *)
Record ReplayArgs : Type := {
  r_environment_spec : EnvironmentSpec;
  r_n_step : Z;
  r_batch_size : Z;
  r_max_replay_size : Z;
  r_min_replay_size : Z;
  r_priority_exponent : float;
  r_discount : float;
}.

(** The four handles of [replay.ReverbReplay]. *)
Record ReverbReplay : Set := {
  server : loc;
  client : loc;
  adder : loc;
  data_iterator : loc;
}.

(** The keyword arguments of [learning.DQNLearner]. *)
Record Learner : Type := {
  l_network : Network;
  l_obs_spec : ObsSpec;
  l_rng : loc;
  l_optimizer : GradientTransformation;
  l_discount : float;
  l_importance_sampling_exponent : float;
  l_target_update_period : Z;
  l_iterator : loc;
  l_replay_client : loc;
}.

(** The function object made by [def policy]: it captures the variables
    [network] and [config] of the enclosing call. *)
Inductive Closure : Type :=
  | policy_closure (network : Network) (config : loc).

(** The keyword arguments of [actors.FeedForwardActor]. *)
Record Actor : Type := {
  a_policy : Closure;
  a_rng : loc;
  a_variable_client : loc;
  a_adder : loc;
}.

(** The attributes of the agent instance; [None] is an attribute that is
    not set yet. *)
Record Agent : Set := {
  _server : option loc;
  _actor : option loc;
  _learner : option loc;
  _min_observations : option Z;
  _observations_per_step : option float;
}.

Inductive obj : Type :=
  | OConfig (c : DQNConfig)
  | OServer (args : ReplayArgs)
  | OClient (srv : loc)
  | OAdder (srv : loc)
  | OIterator (srv : loc)
  | OPRNGSequence (sd : Z)
  | OLearner (l : Learner)
  | OVariableClient (source : loc) (key : string)
  | OActor (a : Actor)
  | OAgent (a : Agent).

(** ** Store-passing computations that may raise *)

Definition M (A : Type) : Type := list obj → result A * list obj.

Definition ret {A} (a : A) : M A := λ σ, (Ok a, σ).

Definition bind {A B} (m : M A) (f : A → M B) : M B :=
  λ σ, match m σ with
       | (Ok a, σ') => f a σ'
       | (Raise e, σ') => (Raise e, σ')
       end.

Definition lift {A} (r : result A) : M A := λ σ, (r, σ).

(** Allocation of a new object. *)
Definition new (o : obj) : M loc := λ σ, (Ok (length σ), σ ++ [o]).

End Objects.

Arguments ReplayArgs : clear implicits.
Arguments Learner : clear implicits.
Arguments Closure : clear implicits.
Arguments Actor : clear implicits.
Arguments obj : clear implicits.
Arguments M : clear implicits.

(** The store: the objects allocated so far; a location is an index. *)
Abbreviation store E O N := (list (obj E O N)).

Notation "'do' x <- m ; k" := (bind m (λ x, k))
  (at level 10, x name, m at level 100, k at level 200, only parsing).

(** ** The constructors *)

Section Construction.
Context {EnvironmentSpec ObsSpec Network : Type}.

(** [environment_spec.observations]. *)
Variable observations : EnvironmentSpec → ObsSpec.

(** The components this module delegates to (the replay server, the random
    sequences, the learner, the variable client, the actor, the agent base)
    validate their own arguments and may refuse them; [accepts o] tells
    whether the component described by [o] is built or raises. *)
Variable accepts : obj EnvironmentSpec ObsSpec Network → bool.

Local Abbreviation obj := (obj EnvironmentSpec ObsSpec Network).
Local Abbreviation store := (store EnvironmentSpec ObsSpec Network).
Local Abbreviation M := (M EnvironmentSpec ObsSpec Network).

(** A call of a delegated constructor. *)
Definition construct (o : obj) : M loc :=
  λ σ, if accepts o then new o σ else (Raise ExternalError, σ).

(** [config.<field>]: an attribute read through the reference. *)
Definition getattr {A} (config : loc) (field : DQNConfig → A) : M A :=
  λ σ, match σ !! config with
       | Some (OConfig c) => (Ok (field c), σ)
       | _ => (Raise AttributeError, σ)
       end.

(** [config.<field> = v]: the generated [__setattr__] of a dataclass
    refuses when the class is frozen. *)
Definition setattr (config : loc) (a : assignment) : M unit :=
  λ σ, match σ !! config with
       | Some (OConfig c) =>
           if frozen DQNConfig_dataclass
           then (Raise FrozenInstanceError, σ)
           else (Ok tt, <[config := OConfig (assign a c)]> σ)
       | _ => (Raise AttributeError, σ)
       end.

(** [DQNConfig(...)]: the generated constructor stores the fields in a new
    instance. *)
Definition DQNConfig_new (kw : DQNConfig_kwargs) : M loc :=
  new (OConfig (DQNConfig_init kw)).

(** Modelled from the spec: [replay.make_reverb_prioritized_nstep_replay]
    is not part of the source at hand. "Replay handles (server, client, data
    iterator, adder): produced as a group by the replay-construction call;
    the server owns buffered transitions; the client/adder/iterator are
    views onto it." *)
Definition make_reverb_prioritized_nstep_replay
    (args : ReplayArgs EnvironmentSpec) : M ReverbReplay :=
  do srv <- construct (OServer args);
  do cl <- new (OClient srv);
  do ad <- new (OAdder srv);
  do it <- new (OIterator srv);
  ret {| server := srv; client := cl; adder := ad; data_iterator := it |}.

(** [self._server = ...]. *)
Definition set_server (self : loc) (srv : loc) : M unit :=
  λ σ, match σ !! self with
       | Some (OAgent a) =>
           (Ok tt,
            <[self := OAgent {| _server := Some srv;
                                _actor := _actor a;
                                _learner := _learner a;
                                _min_observations := _min_observations a;
                                _observations_per_step :=
                                  _observations_per_step a |}]> σ)
       | _ => (Raise AttributeError, σ)
       end.

(** Modelled from the spec: [agent.Agent.__init__] is not part of the source
    at hand. "Assemble a generic agent with the actor, learner, a
    minimum-observations threshold [...] and an observation-to-learning-step
    ratio". *)
Definition Agent_init (self : loc) (actor learner : loc)
    (min_observations : Z) (observations_per_step : float) : M unit :=
  λ σ, match σ !! self with
       | Some (OAgent a) =>
           let a' := {| _server := _server a;
                        _actor := Some actor;
                        _learner := Some learner;
                        _min_observations := Some min_observations;
                        _observations_per_step :=
                          Some observations_per_step |} in
           if accepts (OAgent a')
           then (Ok tt, <[self := OAgent a']> σ)
           else (Raise ExternalError, σ)
       | _ => (Raise AttributeError, σ)
       end.

(** [DQNFromConfig.__init__]. *)
Definition DQNFromConfig_init (self : loc)
    (environment_spec : EnvironmentSpec) (network : Network)
    (config : loc) : M unit :=
  do n <- getattr config n_step;
  do b <- getattr config batch_size;
  do mx <- getattr config max_replay_size;
  do mn <- getattr config min_replay_size;
  do pe <- getattr config priority_exponent;
  do d <- getattr config discount;
  do reverb_replay <- make_reverb_prioritized_nstep_replay
    {| r_environment_spec := environment_spec;
       r_n_step := n;
       r_batch_size := b;
       r_max_replay_size := mx;
       r_min_replay_size := mn;
       r_priority_exponent := pe;
       r_discount := d |};
  do _ <- set_server self (server reverb_replay);
  do mgn <- getattr config max_gradient_norm;
  do lr <- getattr config learning_rate;
  let optimizer := chain [clip_by_global_norm mgn; adam lr] in
  do sd <- getattr config seed;
  do rng <- construct (OPRNGSequence sd);
  do d <- getattr config discount;
  do ise <- getattr config importance_sampling_exponent;
  do tup <- getattr config target_update_period;
  do learner <- construct (OLearner
    {| l_network := network;
       l_obs_spec := observations environment_spec;
       l_rng := rng;
       l_optimizer := optimizer;
       l_discount := d;
       l_importance_sampling_exponent := ise;
       l_target_update_period := tup;
       l_iterator := data_iterator reverb_replay;
       l_replay_client := client reverb_replay |});
  let policy := policy_closure network config in
  do sd <- getattr config seed;
  do rng <- construct (OPRNGSequence sd);
  do variable_client <- construct (OVariableClient learner EmptyString);
  do actor <- construct (OActor
    {| a_policy := policy;
       a_rng := rng;
       a_variable_client := variable_client;
       a_adder := adder reverb_replay |});
  do b <- getattr config batch_size;
  do mn <- getattr config min_replay_size;
  let min_observations := Z.max b mn in
  do b <- getattr config batch_size;
  do spi <- getattr config samples_per_insert;
  do observations_per_step <- lift (truediv b spi);
  Agent_init self actor learner min_observations observations_per_step.

(** An instance before [__init__] has run. *)
Definition blank : Agent :=
  {| _server := None; _actor := None; _learner := None;
     _min_observations := None; _observations_per_step := None |}.

(** The call [DQNFromConfig(environment_spec, network, config)]: the
    instance is allocated, initialised and returned. *)
Definition DQNFromConfig (environment_spec : EnvironmentSpec)
    (network : Network) (config : loc) : M loc :=
  do self <- new (OAgent blank);
  do _ <- DQNFromConfig_init self environment_spec network config;
  ret self.

(** The keywords of [DQN.__init__] after [environment_spec] and [network];
    [None] is a keyword that is not passed. *)
Record DQN_kwargs : Set := {
  kw_batch_size : option Z;
  kw_prefetch_size : option Z;
  kw_target_update_period : option Z;
  kw_samples_per_insert : option float;
  kw_min_replay_size : option Z;
  kw_max_replay_size : option Z;
  kw_importance_sampling_exponent : option float;
  kw_priority_exponent : option float;
  kw_n_step : option Z;
  kw_epsilon : option float;
  kw_learning_rate : option float;
  kw_discount : option float;
  kw_seed : option Z;
}.

(** The record [DQN.__init__] packs: every parameter, bound to the keyword
    or to the default of the signature, is passed on by name. *)
Definition DQN_config (kw : DQN_kwargs) : DQNConfig_kwargs :=
  let batch_size := default 256%Z (kw_batch_size kw) in
  let prefetch_size := default 4%Z (kw_prefetch_size kw) in
  let target_update_period := default 100%Z (kw_target_update_period kw) in
  let samples_per_insert := default 0.5%float (kw_samples_per_insert kw) in
  let min_replay_size := default 1000%Z (kw_min_replay_size kw) in
  let max_replay_size := default 1000000%Z (kw_max_replay_size kw) in
  let importance_sampling_exponent :=
    default 0.2%float (kw_importance_sampling_exponent kw) in
  let priority_exponent := default 0.6%float (kw_priority_exponent kw) in
  let n_step := default 5%Z (kw_n_step kw) in
  let epsilon := default 0.05%float (kw_epsilon kw) in
  let learning_rate := default 1e-3%float (kw_learning_rate kw) in
  let discount := default 0.99%float (kw_discount kw) in
  let seed := default 1%Z (kw_seed kw) in
  {| k_batch_size := Some batch_size;
     k_prefetch_size := Some prefetch_size;
     k_target_update_period := Some target_update_period;
     k_samples_per_insert := Some samples_per_insert;
     k_min_replay_size := Some min_replay_size;
     k_max_replay_size := Some max_replay_size;
     k_importance_sampling_exponent := Some importance_sampling_exponent;
     k_priority_exponent := Some priority_exponent;
     k_n_step := Some n_step;
     k_epsilon := Some epsilon;
     k_learning_rate := Some learning_rate;
     k_discount := Some discount;
     k_seed := Some seed;
     k_max_gradient_norm := None |}.

(** [DQN.__init__]. *)
Definition DQN_init (self : loc) (environment_spec : EnvironmentSpec)
    (network : Network) (kw : DQN_kwargs) : M unit :=
  do config <- DQNConfig_new (DQN_config kw);
  DQNFromConfig_init self environment_spec network config.

(** The call [DQN(environment_spec, network, **kw)]. *)
Definition DQN (environment_spec : EnvironmentSpec) (network : Network)
    (kw : DQN_kwargs) : M loc :=
  do self <- new (OAgent blank);
  do _ <- DQN_init self environment_spec network kw;
  ret self.

End Construction.

(** ** The call the legacy constructor is compared with

    This definition follows the specification, not the source: "calling the
    primary constructor with an equivalent configuration record". The caller
    passes to [DQNConfig] the very keywords it would pass to [DQN], then hands
    the record to [DQNFromConfig]. *)

Definition equivalent_config (kw : DQN_kwargs) : DQNConfig_kwargs :=
  {| k_epsilon := kw_epsilon kw;
     k_samples_per_insert := kw_samples_per_insert kw;
     k_seed := kw_seed kw;
     k_learning_rate := kw_learning_rate kw;
     k_discount := kw_discount kw;
     k_n_step := kw_n_step kw;
     k_target_update_period := kw_target_update_period kw;
     k_max_gradient_norm := None;
     k_batch_size := kw_batch_size kw;
     k_min_replay_size := kw_min_replay_size kw;
     k_max_replay_size := kw_max_replay_size kw;
     k_importance_sampling_exponent := kw_importance_sampling_exponent kw;
     k_priority_exponent := kw_priority_exponent kw;
     k_prefetch_size := kw_prefetch_size kw |}.

Definition primary_with_equivalent_config
    {EnvironmentSpec ObsSpec Network : Type}
    (observations : EnvironmentSpec → ObsSpec)
    (accepts : obj EnvironmentSpec ObsSpec Network → bool)
    (environment_spec : EnvironmentSpec) (network : Network)
    (kw : DQN_kwargs) : M EnvironmentSpec ObsSpec Network loc :=
  do config <- DQNConfig_new (equivalent_config kw);
  DQNFromConfig observations accepts environment_spec network config.

(** ** The resulting configuration of an agent

    What an agent is made of once every reference is followed: the values
    that reached each component, without the addresses. *)

Section Views.
Context {EnvironmentSpec ObsSpec Network : Type}.
Local Abbreviation store := (store EnvironmentSpec ObsSpec Network).

Record LearnerView : Type := {
  lv_network : Network;
  lv_obs_spec : ObsSpec;
  lv_rng_seed : Z;
  lv_optimizer : GradientTransformation;
  lv_discount : float;
  lv_importance_sampling_exponent : float;
  lv_target_update_period : Z;
  lv_iterator_replay : ReplayArgs EnvironmentSpec;
  lv_client_replay : ReplayArgs EnvironmentSpec;
}.

Record ActorView : Type := {
  av_policy_network : Network;
  av_policy_config : DQNConfig;
  av_rng_seed : Z;
  av_variable_source : LearnerView;
  av_variable_key : string;
  av_adder_replay : ReplayArgs EnvironmentSpec;
}.

Record AgentView : Type := {
  gv_server : ReplayArgs EnvironmentSpec;
  gv_actor : ActorView;
  gv_learner : LearnerView;
  gv_min_observations : Z;
  gv_observations_per_step : float;
}.

Definition server_at (σ : store) (l : loc) : option (ReplayArgs EnvironmentSpec) :=
  match σ !! l with Some (OServer args) => Some args | _ => None end.

Definition server_of_client (σ : store) (l : loc) :=
  match σ !! l with Some (OClient srv) => server_at σ srv | _ => None end.

Definition server_of_adder (σ : store) (l : loc) :=
  match σ !! l with Some (OAdder srv) => server_at σ srv | _ => None end.

Definition server_of_iterator (σ : store) (l : loc) :=
  match σ !! l with Some (OIterator srv) => server_at σ srv | _ => None end.

Definition seed_at (σ : store) (l : loc) : option Z :=
  match σ !! l with Some (OPRNGSequence sd) => Some sd | _ => None end.

Definition config_at (σ : store) (l : loc) : option DQNConfig :=
  match σ !! l with Some (OConfig c) => Some c | _ => None end.

Definition learner_view (σ : store) (l : loc) : option LearnerView :=
  match σ !! l with
  | Some (OLearner L) =>
      sd ← seed_at σ (l_rng L);
      it ← server_of_iterator σ (l_iterator L);
      cl ← server_of_client σ (l_replay_client L);
      Some {| lv_network := l_network L;
              lv_obs_spec := l_obs_spec L;
              lv_rng_seed := sd;
              lv_optimizer := l_optimizer L;
              lv_discount := l_discount L;
              lv_importance_sampling_exponent :=
                l_importance_sampling_exponent L;
              lv_target_update_period := l_target_update_period L;
              lv_iterator_replay := it;
              lv_client_replay := cl |}
  | _ => None
  end.

Definition actor_view (σ : store) (l : loc) : option ActorView :=
  match σ !! l with
  | Some (OActor A) =>
      let '(policy_closure network config) := a_policy A in
      c ← config_at σ config;
      sd ← seed_at σ (a_rng A);
      '(source, key) ← match σ !! a_variable_client A with
                        | Some (OVariableClient source key) =>
                            Some (source, key)
                        | _ => None
                        end;
      lv ← learner_view σ source;
      ad ← server_of_adder σ (a_adder A);
      Some {| av_policy_network := network;
              av_policy_config := c;
              av_rng_seed := sd;
              av_variable_source := lv;
              av_variable_key := key;
              av_adder_replay := ad |}
  | _ => None
  end.

Definition agent_view (σ : store) (l : loc) : option AgentView :=
  match σ !! l with
  | Some (OAgent a) =>
      srv ← _server a ≫= server_at σ;
      av ← _actor a ≫= actor_view σ;
      lv ← _learner a ≫= learner_view σ;
      mo ← _min_observations a;
      ops ← _observations_per_step a;
      Some {| gv_server := srv;
              gv_actor := av;
              gv_learner := lv;
              gv_min_observations := mo;
              gv_observations_per_step := ops |}
  | _ => None
  end.

(** The references an actor holds, directly or in its policy closure. *)
Definition actor_refs (A : Actor Network) : list loc :=
  let '(policy_closure _ config) := a_policy A in
  [config; a_rng A; a_variable_client A; a_adder A].

End Views.

Arguments LearnerView : clear implicits.
Arguments ActorView : clear implicits.
Arguments AgentView : clear implicits.

(** ** The policy *)

Section Policy.
Context {EnvironmentSpec ObsSpec Network : Type}.
Context {Params Observation Key Value : Type}.
Local Abbreviation M := (M EnvironmentSpec ObsSpec Network).

(** [network.apply]: the action values of an observation. *)
Variable apply : Network → Params → Observation → list Value.

(** The order of action values. *)
Variable le : Value → Value → bool.

(** The random key: a uniform draw of [[0, 1)] and a uniform draw of
    [[0, n)]. *)
Variable uniform : Key → float.
Variable randint : Key → nat → nat.

(** The first index of the largest value, scanning left to right. *)
Fixpoint argmax_from (best : nat) (top : Value) (i : nat)
    (values : list Value) : nat :=
  match values with
  | [] => best
  | v :: values' =>
      if le v top then argmax_from best top (S i) values'
      else argmax_from i v (S i) values'
  end.

Definition argmax (values : list Value) : nat :=
  match values with
  | [] => 0
  | v :: values' => argmax_from 0 v 1 values'
  end.

(** Modelled from the spec: [rlax.epsilon_greedy(epsilon).sample] is not
    part of the source at hand. "Epsilon-greedy policy: action selection
    that picks the best-known action with probability (1-epsilon) and a
    random action otherwise." *)
Definition epsilon_greedy_sample (epsilon : float) (key : Key)
    (preferences : list Value) : nat :=
  if (uniform key <? epsilon)%float
  then randint key (length preferences)
  else argmax preferences.

(** A call of the closure [policy]: [config.epsilon] is read when the
    closure runs. *)
Definition policy (p : Closure Network) (params : Params) (key : Key)
    (observation : Observation) : M nat :=
  let '(policy_closure network config) := p in
  let action_values := apply network params observation in
  do eps <- getattr config epsilon;
  ret (epsilon_greedy_sample eps key action_values).

End Policy.

(** ** The update of a gradient transformation *)

Section Update.
(** What a transformation acts on: the updates together with the optimizer
    state. *)
Context {X : Type}.
Variable clip : float → X → X.
Variable adam_step : float → X → X.

(** Modelled from the spec: [optax.chain] is not part of the source at
    hand. "clip gradients to a maximum global norm, then apply adaptive
    gradient descent": a chain runs its transformations in the order they
    are listed, each on the result of the one before. *)
Fixpoint update (t : GradientTransformation) (x : X) : X :=
  match t with
  | clip_by_global_norm max_norm => clip max_norm x
  | adam lr => adam_step lr x
  | chain ts => fold_left (λ x t, update t x) ts x
  end.

End Update.

(** ** The names of the hyperparameters *)

(** The fields of [DQNConfig], in the order of the class body. *)
Definition DQNConfig_fields : list string :=
  ["epsilon"; "samples_per_insert"; "seed"; "learning_rate"; "discount";
   "n_step"; "target_update_period"; "max_gradient_norm"; "batch_size";
   "min_replay_size"; "max_replay_size"; "importance_sampling_exponent";
   "priority_exponent"; "prefetch_size"]%string.

(** The keywords of [DQN.__init__] after [environment_spec] and [network],
    in the order of the signature. *)
Definition DQN_keywords : list string :=
  ["batch_size"; "prefetch_size"; "target_update_period";
   "samples_per_insert"; "min_replay_size"; "max_replay_size";
   "importance_sampling_exponent"; "priority_exponent"; "n_step"; "epsilon";
   "learning_rate"; "discount"; "seed"]%string.

(** ** A concrete run

    The external types are instantiated by [unit], every delegated constructor
    accepts its arguments, and the store holds one configuration record. *)

Module Run.
Definition observations (_ : unit) : unit := tt.
Definition accepts (_ : obj unit unit unit) : bool := true.

Definition config (batch min_replay : Z) (spi eps : float) : DQNConfig :=
  DQNConfig_init
    {| k_epsilon := Some eps;
       k_samples_per_insert := Some spi;
       k_seed := None;
       k_learning_rate := None;
       k_discount := None;
       k_n_step := None;
       k_target_update_period := None;
       k_max_gradient_norm := None;
       k_batch_size := Some batch;
       k_min_replay_size := Some min_replay;
       k_max_replay_size := None;
       k_importance_sampling_exponent := None;
       k_priority_exponent := None;
       k_prefetch_size := None |}.

Definition σ0 (c : DQNConfig) : store unit unit unit := [OConfig c].

Definition kwargs : DQN_kwargs :=
  {| kw_batch_size := Some 32%Z;
     kw_prefetch_size := None;
     kw_target_update_period := None;
     kw_samples_per_insert := None;
     kw_min_replay_size := None;
     kw_max_replay_size := None;
     kw_importance_sampling_exponent := None;
     kw_priority_exponent := None;
     kw_n_step := None;
     kw_epsilon := None;
     kw_learning_rate := None;
     kw_discount := None;
     kw_seed := Some 7%Z |}.

(** Action values in [Z]; the key is the pair of its two draws. *)
Definition apply (_ : unit) (_ : unit) (observation : list Z) : list Z :=
  observation.
Definition uniform (key : float * nat) : float := key.1.
Definition randint (key : float * nat) (n : nat) : nat := key.2 `mod` n.
End Run.

(** * What the constructors build

    The statements of the properties below are written with these
    definitions. *)

Section Statements.
Context {EnvironmentSpec ObsSpec Network : Type}.
Local Abbreviation obj := (obj EnvironmentSpec ObsSpec Network).
Local Abbreviation store := (store EnvironmentSpec ObsSpec Network).
Local Abbreviation M := (M EnvironmentSpec ObsSpec Network).

(** While [__init__] runs, the store is the initial one with the instance
    [self] updated, followed by the objects built so far. *)
Definition during (τ : store) (self : loc) (ag : Agent) (l : list obj) : store :=
  <[self := OAgent ag]> τ ++ l.

(** The objects [DQNFromConfig.__init__] builds when the store has [n]
    objects, in the order they are built. *)
Definition wiring (observations : EnvironmentSpec → ObsSpec)
    (environment_spec : EnvironmentSpec) (network : Network)
    (c : loc) (cfg : DQNConfig) (n : nat) : list obj :=
  [ OServer {| r_environment_spec := environment_spec;
               r_n_step := n_step cfg;
               r_batch_size := batch_size cfg;
               r_max_replay_size := max_replay_size cfg;
               r_min_replay_size := min_replay_size cfg;
               r_priority_exponent := priority_exponent cfg;
               r_discount := discount cfg |};
    OClient n;
    OAdder n;
    OIterator n;
    OPRNGSequence (seed cfg);
    OLearner {| l_network := network;
                l_obs_spec := observations environment_spec;
                l_rng := n + 4;
                l_optimizer := chain [clip_by_global_norm (max_gradient_norm cfg);
                                      adam (learning_rate cfg)];
                l_discount := discount cfg;
                l_importance_sampling_exponent :=
                  importance_sampling_exponent cfg;
                l_target_update_period := target_update_period cfg;
                l_iterator := n + 3;
                l_replay_client := n + 1 |};
    OPRNGSequence (seed cfg);
    OVariableClient (n + 5) EmptyString;
    OActor {| a_policy := policy_closure network c;
              a_rng := n + 6;
              a_variable_client := n + 7;
              a_adder := n + 2 |} ].

(** The attributes of the instance when [__init__] returns. *)
Definition assembled (cfg : DQNConfig) (n : nat) (q : float) : Agent :=
  {| _server := Some n;
     _actor := Some (n + 8);
     _learner := Some (n + 5);
     _min_observations := Some (Z.max (batch_size cfg) (min_replay_size cfg));
     _observations_per_step := Some q |}.

(** What the call [DQNFromConfig(...)] adds to a store of [n] objects: the
    instance first, then what its [__init__] builds. *)
Definition built (observations : EnvironmentSpec → ObsSpec)
    (environment_spec : EnvironmentSpec) (network : Network)
    (c : loc) (cfg : DQNConfig) (n : nat) (q : float) : list obj :=
  OAgent (assembled cfg (n + 1) q)
  :: wiring observations environment_spec network c cfg (n + 1).

(** A computation keeps the configuration records when every record of the
    store it starts from is still there, unchanged, when it stops, whether it
    returns or raises. *)
Definition keeps_configs {A} (m : M A) : Prop :=
  ∀ σ i cfg, σ !! i = Some (OConfig cfg) → (m σ).2 !! i = Some (OConfig cfg).

Definition differ_only_in_prefetch_size (cfg cfg' : DQNConfig) : Prop :=
  epsilon cfg = epsilon cfg' ∧
  samples_per_insert cfg = samples_per_insert cfg' ∧
  seed cfg = seed cfg' ∧
  learning_rate cfg = learning_rate cfg' ∧
  discount cfg = discount cfg' ∧
  n_step cfg = n_step cfg' ∧
  target_update_period cfg = target_update_period cfg' ∧
  max_gradient_norm cfg = max_gradient_norm cfg' ∧
  batch_size cfg = batch_size cfg' ∧
  min_replay_size cfg = min_replay_size cfg' ∧
  max_replay_size cfg = max_replay_size cfg' ∧
  importance_sampling_exponent cfg = importance_sampling_exponent cfg' ∧
  priority_exponent cfg = priority_exponent cfg'.

(** The store with the record [cfg'] at [c]. *)
Definition retune (c : loc) (cfg' : DQNConfig) (σ : store) : store :=
  <[c := OConfig cfg']> σ.

(** Two runs are compared: one from a store whose record at [c] is [cfg], one
    from the same store with [cfg'] there instead. A computation is blind to
    the difference when both runs return the same result and stores that are
    again equal up to that record. *)
Definition prefetch_blind (c : loc) (cfg cfg' : DQNConfig) {A} (m : M A) : Prop :=
  ∀ σ, σ !! c = Some (OConfig cfg) →
    (m σ).2 !! c = Some (OConfig cfg) ∧
    m (retune c cfg' σ) = ((m σ).1, retune c cfg' (m σ).2).

(** The agent at [a] of [σ'], built from [σ], has a learner and an actor that
    share one replay server created by the construction. *)
Definition share_one_replay (σ σ' : store) (a : loc) : Prop :=
  ∃ ag l act srv L A args,
    σ' !! a = Some (OAgent ag) ∧
    _learner ag = Some l ∧ σ' !! l = Some (OLearner L) ∧
    _actor ag = Some act ∧ σ' !! act = Some (OActor A) ∧
    _server ag = Some srv ∧ σ' !! srv = Some (OServer args) ∧
    σ !! srv = None ∧
    σ' !! l_iterator L = Some (OIterator srv) ∧
    σ' !! l_replay_client L = Some (OClient srv) ∧
    σ' !! a_adder A = Some (OAdder srv) ∧
    (∀ i args', σ' !! i = Some (OServer args') → σ !! i = None → i = srv) ∧
    (∀ i L', σ' !! i = Some (OLearner L') → σ !! i = None → i = l) ∧
    (∀ i A', σ' !! i = Some (OActor A') → σ !! i = None → i = act) ∧
    (∃ key, σ' !! a_variable_client A = Some (OVariableClient l key)) ∧
    l ∉ actor_refs A.

(** The learner of the agent at [a] of [σ'] has the optimizer that clips to
    [max_gradient_norm], then runs Adam with [learning_rate]. *)
Definition clips_then_adam (cfg : DQNConfig) (σ' : store) (a : loc) : Prop :=
  ∃ ag l L,
    σ' !! a = Some (OAgent ag) ∧
    _learner ag = Some l ∧ σ' !! l = Some (OLearner L) ∧
    l_optimizer L = chain [clip_by_global_norm (max_gradient_norm cfg);
                           adam (learning_rate cfg)] ∧
    ∀ (X : Type) (clip adam_step : float → X → X) (x : X),
      update clip adam_step (l_optimizer L) x
      = adam_step (learning_rate cfg) (clip (max_gradient_norm cfg) x).

(** The learner and the actor of the agent at [a] of [σ'] have two random
    sequences seeded with [seed cfg], and so has every sequence created since
    [σ]. *)
Definition seeded_by_config (cfg : DQNConfig) (σ σ' : store) (a : loc) : Prop :=
  ∃ ag l act L A,
    σ' !! a = Some (OAgent ag) ∧
    _learner ag = Some l ∧ σ' !! l = Some (OLearner L) ∧
    _actor ag = Some act ∧ σ' !! act = Some (OActor A) ∧
    σ' !! l_rng L = Some (OPRNGSequence (seed cfg)) ∧
    σ' !! a_rng A = Some (OPRNGSequence (seed cfg)) ∧
    l_rng L ≠ a_rng A ∧
    ∀ i sd, σ' !! i = Some (OPRNGSequence sd) → σ !! i = None → sd = seed cfg.

(** The policy closure of the actor of the agent at [a], called in [σ'],
    returns an action whose value is the largest of [values]. *)
Definition selects_largest {Params Observation Key Value : Type}
    (apply : Network → Params → Observation → list Value)
    (le : Value → Value → bool) (uniform : Key → float)
    (randint : Key → nat → nat) (σ' : store) (a : loc) (values : list Value)
    (params : Params) (key : Key) (observation : Observation) : Prop :=
  ∃ ag act A action m,
    σ' !! a = Some (OAgent ag) ∧
    _actor ag = Some act ∧ σ' !! act = Some (OActor A) ∧
    policy apply le uniform randint (a_policy A) params key observation σ'
      = (Ok action, σ') ∧
    values !! action = Some m ∧
    ∀ j v, values !! j = Some v → le v m = true.

End Statements.

(** * Further statements

    Definitions for the properties of the constructors beyond the wiring of a
    successful call: what a failing call leaves behind, what is read when, and
    what two calls share. *)

Section FurtherStatements.
Context {EnvironmentSpec ObsSpec Network : Type}.
Local Abbreviation obj := (obj EnvironmentSpec ObsSpec Network).
Local Abbreviation store := (store EnvironmentSpec ObsSpec Network).
Local Abbreviation M := (M EnvironmentSpec ObsSpec Network).

(** The instance when [__init__] stops after [self._server = ...] and before
    [super().__init__]: only [_server] is set. *)
Definition half_built (n : nat) : Agent :=
  {| _server := Some n;
     _actor := None;
     _learner := None;
     _min_observations := None;
     _observations_per_step := None |}.

(** The handles the replay call hands out with its server. *)
Definition is_handle (o : obj) : bool :=
  match o with
  | OClient _ | OAdder _ | OIterator _ => true
  | _ => false
  end.

(** The objects of [wiring] a delegated constructor is asked for. *)
Definition delegated (observations : EnvironmentSpec → ObsSpec)
    (environment_spec : EnvironmentSpec) (network : Network)
    (c : loc) (cfg : DQNConfig) (n : nat) : list obj :=
  List.filter (λ o, negb (is_handle o))
    (wiring observations environment_spec network c cfg n).

(** A computation run while [__init__] is under way only updates the instance
    [self] and appends objects. *)
Definition only_extends (τ : store) (self : loc) {A} (m : M A) : Prop :=
  ∀ ag l, ∃ ag' l',
    (m (during τ self ag l)).2 = during τ self ag' (l ++ l').

(** The fields [DQNFromConfig.__init__] reads: all but [epsilon] and
    [prefetch_size]. *)
Definition same_fields_read (cfg cfg' : DQNConfig) : Prop :=
  samples_per_insert cfg = samples_per_insert cfg' ∧
  seed cfg = seed cfg' ∧
  learning_rate cfg = learning_rate cfg' ∧
  discount cfg = discount cfg' ∧
  n_step cfg = n_step cfg' ∧
  target_update_period cfg = target_update_period cfg' ∧
  max_gradient_norm cfg = max_gradient_norm cfg' ∧
  batch_size cfg = batch_size cfg' ∧
  min_replay_size cfg = min_replay_size cfg' ∧
  max_replay_size cfg = max_replay_size cfg' ∧
  importance_sampling_exponent cfg = importance_sampling_exponent cfg' ∧
  priority_exponent cfg = priority_exponent cfg'.

(** The replay arguments a configuration gives. *)
Definition replay_of (environment_spec : EnvironmentSpec) (cfg : DQNConfig) :
    ReplayArgs EnvironmentSpec :=
  {| r_environment_spec := environment_spec;
     r_n_step := n_step cfg;
     r_batch_size := batch_size cfg;
     r_max_replay_size := max_replay_size cfg;
     r_min_replay_size := min_replay_size cfg;
     r_priority_exponent := priority_exponent cfg;
     r_discount := discount cfg |}.

(** The learner a configuration gives, references followed. *)
Definition learner_of (observations : EnvironmentSpec → ObsSpec)
    (environment_spec : EnvironmentSpec) (network : Network)
    (cfg : DQNConfig) : LearnerView EnvironmentSpec ObsSpec Network :=
  {| lv_network := network;
     lv_obs_spec := observations environment_spec;
     lv_rng_seed := seed cfg;
     lv_optimizer := chain [clip_by_global_norm (max_gradient_norm cfg);
                            adam (learning_rate cfg)];
     lv_discount := discount cfg;
     lv_importance_sampling_exponent := importance_sampling_exponent cfg;
     lv_target_update_period := target_update_period cfg;
     lv_iterator_replay := replay_of environment_spec cfg;
     lv_client_replay := replay_of environment_spec cfg |}.

(** The agent a configuration gives, references followed; [q] is the quotient
    [batch_size / samples_per_insert]. *)
Definition configuration_of (observations : EnvironmentSpec → ObsSpec)
    (environment_spec : EnvironmentSpec) (network : Network)
    (cfg : DQNConfig) (q : float) :
    AgentView EnvironmentSpec ObsSpec Network :=
  {| gv_server := replay_of environment_spec cfg;
     gv_actor :=
       {| av_policy_network := network;
          av_policy_config := cfg;
          av_rng_seed := seed cfg;
          av_variable_source :=
            learner_of observations environment_spec network cfg;
          av_variable_key := EmptyString;
          av_adder_replay := replay_of environment_spec cfg |};
     gv_learner := learner_of observations environment_spec network cfg;
     gv_min_observations := Z.max (batch_size cfg) (min_replay_size cfg);
     gv_observations_per_step := q |}.



(** The learner of the agent at [a] of [σ'] has an optimizer whose clipping
    threshold is infinite, followed by Adam with [lr]. *)
Definition never_clips (lr : float) (σ' : store) (a : loc) : Prop :=
  ∃ ag l L,
    σ' !! a = Some (OAgent ag) ∧
    _learner ag = Some l ∧ σ' !! l = Some (OLearner L) ∧
    l_optimizer L = chain [clip_by_global_norm infinity; adam lr].

End FurtherStatements.

(** * Properties *)

Section Properties.
Context {EnvironmentSpec ObsSpec Network : Type}.
Variable observations : EnvironmentSpec → ObsSpec.
Variable accepts : obj EnvironmentSpec ObsSpec Network → bool.

Local Abbreviation obj := (obj EnvironmentSpec ObsSpec Network).
Local Abbreviation store := (store EnvironmentSpec ObsSpec Network).
Local Abbreviation M := (M EnvironmentSpec ObsSpec Network).

Implicit Types (σ τ : store) (o : obj) (l : list obj) (c self : loc).
Implicit Types (cfg : DQNConfig) (ag : Agent).

(** ** Lookups in an extended store *)

Lemma lookup_new σ l k : (σ ++ l) !! (length σ + k) = l !! k.
Proof.
  rewrite lookup_app_r by lia. f_equal. lia.
Qed.

Lemma lookup_new0 σ l : (σ ++ l) !! length σ = l !! 0.
Proof.
  rewrite <- (Nat.add_0_r (length σ)) at 1. apply lookup_new.
Qed.

Lemma lookup_old σ l i o : σ !! i = Some o → (σ ++ l) !! i = Some o.
Proof. apply lookup_app_l_Some. Qed.

(** ** Symbolic execution of the constructor

    While [__init__] runs, the store is the initial one with the instance
    [self] updated, followed by the objects built so far. *)

Section Steps.
Variables (τ : store) (self c : loc) (ag0 : Agent) (cfg : DQNConfig).
Hypothesis Hself : τ !! self = Some (OAgent ag0).
Hypothesis Hc : τ !! c = Some (OConfig cfg).

Lemma self_not_config : self ≠ c.
Proof using Hself Hc. intros ->. congruence. Qed.

Lemma during_start : τ = during τ self ag0 [].
Proof using Hself.
  unfold during. rewrite app_nil_r. symmetry. by apply list_insert_id.
Qed.

Lemma during_length ag l : length (during τ self ag l) = length τ + length l.
Proof. unfold during. by rewrite length_app, length_insert. Qed.

Lemma during_config ag l : during τ self ag l !! c = Some (OConfig cfg).
Proof using Hself Hc.
  unfold during. apply lookup_old.
  rewrite list_lookup_insert_ne; [done | apply self_not_config].
Qed.

Lemma during_self ag l : during τ self ag l !! self = Some (OAgent ag).
Proof using Hself.
  unfold during. apply lookup_old, list_lookup_insert_eq.
  by apply lookup_lt_Some in Hself.
Qed.

Lemma during_update ag ag' l :
  <[self := OAgent ag']> (during τ self ag l) = during τ self ag' l.
Proof using Hself.
  unfold during. apply lookup_lt_Some in Hself.
  rewrite insert_app_l by (by rewrite length_insert).
  by rewrite list_insert_insert_eq.
Qed.

Lemma getattr_during {A} (field : DQNConfig → A) ag l :
  getattr c field (during τ self ag l) = (Ok (field cfg), during τ self ag l).
Proof using Hself Hc. unfold getattr. by rewrite during_config. Qed.

Lemma new_during o ag l :
  new o (during τ self ag l)
  = (Ok (length τ + length l), during τ self ag (l ++ [o])).
Proof.
  unfold new. rewrite during_length. unfold during. by rewrite app_assoc.
Qed.

Lemma construct_during o ag l :
  construct accepts o (during τ self ag l)
  = if accepts o
    then (Ok (length τ + length l), during τ self ag (l ++ [o]))
    else (Raise ExternalError, during τ self ag l).
Proof. unfold construct. destruct (accepts o); [apply new_during | done]. Qed.

Lemma set_server_during srv ag l :
  set_server self srv (during τ self ag l)
  = (Ok tt, during τ self {| _server := Some srv;
                             _actor := _actor ag;
                             _learner := _learner ag;
                             _min_observations := _min_observations ag;
                             _observations_per_step :=
                               _observations_per_step ag |} l).
Proof using Hself.
  unfold set_server. by rewrite during_self, during_update.
Qed.

Lemma Agent_init_during actor learner mo ops ag l :
  let ag' := {| _server := _server ag;
                _actor := Some actor;
                _learner := Some learner;
                _min_observations := Some mo;
                _observations_per_step := Some ops |} in
  Agent_init accepts self actor learner mo ops (during τ self ag l)
  = if accepts (OAgent ag')
    then (Ok tt, during τ self ag' l)
    else (Raise ExternalError, during τ self ag l).
Proof using Hself.
  intros ag'. unfold Agent_init. rewrite during_self. fold ag'.
  destruct (accepts (OAgent ag')); [by rewrite during_update | done].
Qed.
End Steps.

Ltac run Hself Hc :=
  repeat first
    [ progress cbv beta iota
    | rewrite (getattr_during _ _ _ _ _ Hself Hc)
    | rewrite new_during
    | rewrite construct_during
    | rewrite (set_server_during _ _ _ Hself)
    | rewrite (Agent_init_during _ _ _ Hself)
    | rewrite Nat.add_0_r
    | progress cbn [length app Nat.add server client adder data_iterator
                    _server _actor _learner _min_observations
                    _observations_per_step] ].

Lemma DQNFromConfig_init_inv τ self c ag0 cfg environment_spec network τ' :
  τ !! self = Some (OAgent ag0) →
  τ !! c = Some (OConfig cfg) →
  DQNFromConfig_init observations accepts self environment_spec network c τ
    = (Ok tt, τ') →
  ∃ q, truediv (batch_size cfg) (samples_per_insert cfg) = Ok q ∧
       τ' = <[self := OAgent (assembled cfg (length τ) q)]> τ
            ++ wiring observations environment_spec network c cfg (length τ).
Proof.
  intros Hself Hc.
  rewrite (during_start τ self ag0 Hself) at 1.
  unfold DQNFromConfig_init, make_reverb_prioritized_nstep_replay, bind, ret, lift.
  run Hself Hc.
  repeat (destruct (accepts _); [run Hself Hc | by intros [=]]).
  destruct (truediv _ _) as [q|]; [run Hself Hc | run Hself Hc; by intros [=]].
  repeat (destruct (accepts _); [run Hself Hc | by intros [=]]).
  intros [= <-]. by exists q.
Qed.

Lemma DQNFromConfig_init_total τ self c ag0 cfg environment_spec network q :
  (∀ o, accepts o = true) →
  τ !! self = Some (OAgent ag0) →
  τ !! c = Some (OConfig cfg) →
  truediv (batch_size cfg) (samples_per_insert cfg) = Ok q →
  DQNFromConfig_init observations accepts self environment_spec network c τ
    = (Ok tt, <[self := OAgent (assembled cfg (length τ) q)]> τ
              ++ wiring observations environment_spec network c cfg (length τ)).
Proof.
  intros Hacc Hself Hc Hq.
  rewrite (during_start τ self ag0 Hself) at 1.
  unfold DQNFromConfig_init, make_reverb_prioritized_nstep_replay, bind, ret, lift.
  run Hself Hc. repeat (rewrite Hacc; run Hself Hc).
  rewrite Hq. run Hself Hc. by rewrite Hacc.
Qed.

Lemma insert_new0 σ o o' l : <[length σ := o']> (σ ++ o :: l) = σ ++ o' :: l.
Proof.
  rewrite insert_app_r_alt by lia. by rewrite Nat.sub_diag.
Qed.

Lemma DQNFromConfig_inv σ c cfg environment_spec network a σ' :
  σ !! c = Some (OConfig cfg) →
  DQNFromConfig observations accepts environment_spec network c σ
    = (Ok a, σ') →
  ∃ q, truediv (batch_size cfg) (samples_per_insert cfg) = Ok q ∧
       a = length σ ∧
       σ' = σ ++ built observations environment_spec network c cfg (length σ) q.
Proof.
  intros Hc. unfold DQNFromConfig, bind, new, ret.
  destruct (DQNFromConfig_init _ _ _ _ _ _ _) as [[[]|e] τ'] eqn:Hinit;
    intros [= <- <-].
  eapply DQNFromConfig_init_inv in Hinit as (q & Hq & ->);
    [| by rewrite lookup_new0 | by apply lookup_old ].
  exists q. split_and!; [done..|].
  rewrite length_app, insert_new0, <- app_assoc. done.
Qed.

Lemma DQNFromConfig_total σ c cfg environment_spec network q :
  (∀ o, accepts o = true) →
  σ !! c = Some (OConfig cfg) →
  truediv (batch_size cfg) (samples_per_insert cfg) = Ok q →
  DQNFromConfig observations accepts environment_spec network c σ
    = (Ok (length σ),
       σ ++ built observations environment_spec network c cfg (length σ) q).
Proof.
  intros Hacc Hc Hq. unfold DQNFromConfig, bind, new.
  erewrite DQNFromConfig_init_total;
    [| done | by rewrite lookup_new0 | by apply lookup_old | done ].
  unfold ret. by rewrite length_app, insert_new0, <- app_assoc.
Qed.

(** ** Configuration records are only read

    A computation keeps the configuration records when every record of the
    store it starts from is still there, unchanged, when it stops, whether it
    returns or raises. *)

Lemma keeps_ret {A} (a : A) : keeps_configs (ret a : M A).
Proof. by intros σ i cfg. Qed.

Lemma keeps_lift {A} (r : result A) : keeps_configs (lift r : M A).
Proof. by intros σ i cfg. Qed.

Lemma keeps_new o : keeps_configs (new o).
Proof. intros σ i cfg. apply lookup_old. Qed.

Lemma keeps_construct o : keeps_configs (construct accepts o).
Proof.
  intros σ i cfg. unfold construct.
  destruct (accepts o); [apply lookup_old | done].
Qed.

Lemma keeps_getattr {A} c (field : DQNConfig → A) :
  keeps_configs (getattr c field : M A).
Proof.
  intros σ i cfg. unfold getattr. by destruct (σ !! c) as [[]|].
Qed.

Lemma keeps_set_server self srv : keeps_configs (set_server self srv : M unit).
Proof.
  intros σ i cfg Hi. unfold set_server.
  destruct (σ !! self) as [[]|] eqn:Hself; try done. simpl.
  rewrite list_lookup_insert_ne; [done | intros ->; congruence].
Qed.

Lemma keeps_Agent_init self actor learner mo ops :
  keeps_configs (Agent_init accepts self actor learner mo ops).
Proof.
  intros σ i cfg Hi. unfold Agent_init.
  destruct (σ !! self) as [[]|] eqn:Hself; try done.
  destruct (accepts _); [|done]. simpl.
  rewrite list_lookup_insert_ne; [done | intros ->; congruence].
Qed.

Lemma keeps_bind {A B} (m : M A) (f : A → M B) :
  keeps_configs m → (∀ a, keeps_configs (f a)) → keeps_configs (bind m f).
Proof.
  intros Hm Hf σ i cfg Hi. unfold bind.
  specialize (Hm σ i cfg Hi).
  destruct (m σ) as [[a|e] σ1]; [by apply Hf | done].
Qed.

Create HintDb keeps discriminated.
#[local] Hint Resolve keeps_ret keeps_lift keeps_new keeps_construct
  keeps_getattr keeps_set_server keeps_Agent_init : keeps.

Ltac keeps :=
  repeat first
    [ apply keeps_bind; [| intros ?]
    | solve [auto with keeps] ].

Lemma keeps_make_replay args :
  keeps_configs (make_reverb_prioritized_nstep_replay accepts args).
Proof. unfold make_reverb_prioritized_nstep_replay. keeps. Qed.

Lemma keeps_DQNFromConfig_init self environment_spec network c :
  keeps_configs
    (DQNFromConfig_init observations accepts self environment_spec network c).
Proof.
  unfold DQNFromConfig_init. pose proof keeps_make_replay. keeps.
Qed.

Lemma keeps_DQNFromConfig environment_spec network c :
  keeps_configs (DQNFromConfig observations accepts environment_spec network c).
Proof.
  unfold DQNFromConfig. pose proof keeps_DQNFromConfig_init. keeps.
Qed.

Lemma keeps_DQN environment_spec network kw :
  keeps_configs (DQN observations accepts environment_spec network kw).
Proof.
  unfold DQN, DQN_init, DQNConfig_new.
  pose proof keeps_DQNFromConfig_init. keeps.
Qed.

(** ** The prefetch size is never read

    Two runs are compared: one from a store whose record at [c] is [cfg], one
    from the same store with [cfg'] there instead. A computation is blind to
    the difference when both runs return the same result and stores that are
    again equal up to that record. *)

Section Prefetch.
Variables (c : loc) (cfg cfg' : DQNConfig).

Lemma retune_lookup σ : σ !! c = Some (OConfig cfg) →
  retune c cfg' σ !! c = Some (OConfig cfg').
Proof.
  intros Hc. apply list_lookup_insert_eq. by apply lookup_lt_Some in Hc.
Qed.

Lemma retune_app σ l : σ !! c = Some (OConfig cfg) →
  retune c cfg' σ ++ l = retune c cfg' (σ ++ l).
Proof.
  intros Hc. unfold retune. apply lookup_lt_Some in Hc.
  by rewrite insert_app_l.
Qed.

Lemma blind_ret {A} (a : A) : prefetch_blind c cfg cfg' (ret a : M A).
Proof. by intros σ Hc. Qed.

Lemma blind_lift {A} (r : result A) : prefetch_blind c cfg cfg' (lift r : M A).
Proof. by intros σ Hc. Qed.

Lemma blind_new o : prefetch_blind c cfg cfg' (new o).
Proof.
  intros σ Hc. split; [by apply lookup_old|].
  unfold new. simpl. rewrite retune_app by done.
  unfold retune at 1. by rewrite length_insert.
Qed.

Lemma blind_construct o : prefetch_blind c cfg cfg' (construct accepts o).
Proof.
  intros σ Hc. unfold construct.
  destruct (accepts o); [by apply blind_new | done].
Qed.

Lemma blind_getattr {A} (field : DQNConfig → A) :
  field cfg = field cfg' → prefetch_blind c cfg cfg' (getattr c field : M A).
Proof.
  intros Hfield σ Hc. unfold getattr.
  rewrite (retune_lookup σ Hc), Hc. simpl. by rewrite Hfield.
Qed.

Lemma retune_other σ i : i ≠ c → retune c cfg' σ !! i = σ !! i.
Proof. intros Hi. unfold retune. by rewrite list_lookup_insert_ne. Qed.

Lemma blind_set_server self srv : prefetch_blind c cfg cfg' (set_server self srv : M unit).
Proof.
  intros σ Hc. unfold set_server.
  destruct (decide (self = c)) as [->|Hne].
  - by rewrite (retune_lookup σ Hc), Hc.
  - rewrite (retune_other σ self Hne).
    destruct (σ !! self) as [[]|]; try done. simpl.
    rewrite list_lookup_insert_ne by done. split; [done|].
    unfold retune. by rewrite list_insert_insert_ne.
Qed.

Lemma blind_Agent_init self actor learner mo ops :
  prefetch_blind c cfg cfg' (Agent_init accepts self actor learner mo ops).
Proof.
  intros σ Hc. unfold Agent_init.
  destruct (decide (self = c)) as [->|Hne].
  - by rewrite (retune_lookup σ Hc), Hc.
  - rewrite (retune_other σ self Hne).
    destruct (σ !! self) as [[]|]; try done.
    destruct (accepts _); [|done]. simpl.
    rewrite list_lookup_insert_ne by done. split; [done|].
    unfold retune. by rewrite list_insert_insert_ne.
Qed.

Lemma blind_bind {A B} (m : M A) (f : A → M B) :
  prefetch_blind c cfg cfg' m → (∀ a, prefetch_blind c cfg cfg' (f a)) → prefetch_blind c cfg cfg' (bind m f).
Proof.
  intros Hm Hf σ Hc. unfold bind.
  destruct (Hm σ Hc) as [Hc1 ->].
  destruct (m σ) as [[a|e] σ1]; simpl in *; [by apply Hf | done].
Qed.

Hypothesis Hsame : differ_only_in_prefetch_size cfg cfg'.

Ltac blind :=
  repeat first
    [ apply blind_bind; [| intros ?]
    | apply blind_ret | apply blind_lift | apply blind_new
    | apply blind_construct | apply blind_set_server | apply blind_Agent_init
    | apply blind_getattr; apply Hsame
    | assumption ].

Lemma blind_DQNFromConfig_init self environment_spec network :
  prefetch_blind c cfg cfg'
    (DQNFromConfig_init observations accepts self environment_spec network c).
Proof using Hsame.
  unfold DQNFromConfig_init, make_reverb_prioritized_nstep_replay.
  blind.
Qed.

Lemma blind_DQNFromConfig environment_spec network :
  prefetch_blind c cfg cfg' (DQNFromConfig observations accepts environment_spec network c).
Proof using Hsame.
  unfold DQNFromConfig. pose proof blind_DQNFromConfig_init. blind.
Qed.

End Prefetch.

End Properties.

(** ** Floats: a draw of [[0, 1)] is never below a zero [epsilon] *)

Lemma zero_epsilon_never_explores (eps u : float) :
  (eps =? 0)%float = true →
  (0 <=? u)%float = true →
  (u <? eps)%float = false.
Proof.
  rewrite FloatAxioms.eqb_spec, FloatAxioms.leb_spec, FloatAxioms.ltb_spec.
  change (Prim2SF 0) with (S754_zero false).
  destruct (Prim2SF eps) as [[]|[]| |[] m e], (Prim2SF u) as [[]|[]| |[] m' e'];
    vm_compute; congruence.
Qed.

(** ** The first largest value *)

Section Argmax.
Context {Value : Type}.
Variable le : Value → Value → bool.
Hypothesis le_total : ∀ v w, le v w = true ∨ le w v = true.
Hypothesis le_trans : ∀ u v w, le u v = true → le v w = true → le u w = true.

(** [argmax_from] scans [values], the rest of [seen ++ values], with the
    largest value seen so far and the index it was met at. *)
Lemma argmax_from_largest values : ∀ seen best top,
  seen !! best = Some top →
  (∀ j v, seen !! j = Some v → le v top = true) →
  ∃ m, (seen ++ values) !! argmax_from le best top (length seen) values = Some m ∧
       ∀ j v, (seen ++ values) !! j = Some v → le v m = true.
Proof using le_total le_trans.
  induction values as [|x values IH]; intros seen best top Hbest Hall; simpl.
  - rewrite app_nil_r. eauto.
  - replace (seen ++ x :: values) with ((seen ++ [x]) ++ values)
      by (by rewrite <- app_assoc).
    replace (S (length seen)) with (length (seen ++ [x]))
      by (rewrite length_app; simpl; lia).
    destruct (le x top) eqn:Hx.
    + apply IH; [by apply lookup_app_l_Some|].
      intros j v [Hj|[_ Hj]]%lookup_app_Some; [by eapply Hall|].
      destruct (j - length seen) as [|k]; simpl in Hj;
        [by injection Hj as <- | by rewrite lookup_nil in Hj].
    + assert (le top x = true) as Htop by (destruct (le_total x top); congruence).
      apply IH.
      * rewrite lookup_app_r by lia. by rewrite Nat.sub_diag.
      * intros j v [Hj|[_ Hj]]%lookup_app_Some; [by eauto|].
        destruct (j - length seen) as [|k]; simpl in Hj;
          [injection Hj as <- | by rewrite lookup_nil in Hj].
        by destruct (le_total x x).
Qed.

Lemma argmax_largest values : values ≠ [] →
  ∃ m, values !! argmax le values = Some m ∧
       ∀ j v, values !! j = Some v → le v m = true.
Proof using le_total le_trans.
  destruct values as [|x values]; [done|]. intros _.
  apply (argmax_from_largest values [x] 0 x); [done|].
  intros [|j] v; simpl; [|by rewrite lookup_nil].
  intros [= ->]. by destruct (le_total v v).
Qed.

End Argmax.

(** * The claims *)

Section Claims.
Context {EnvironmentSpec ObsSpec Network : Type}.
Variable observations : EnvironmentSpec → ObsSpec.
Variable accepts : obj EnvironmentSpec ObsSpec Network → bool.

Local Abbreviation obj := (obj EnvironmentSpec ObsSpec Network).
Local Abbreviation store := (store EnvironmentSpec ObsSpec Network).
Local Abbreviation M := (M EnvironmentSpec ObsSpec Network).

Implicit Types (σ τ : store) (c : loc) (cfg : DQNConfig).
Implicit Types (environment_spec : EnvironmentSpec) (network : Network).

(** The objects a construction added to [σ], with every location written
    [length σ + k]. *)
Ltac unfold_built :=
  unfold built, wiring, assembled; rewrite <- ?Nat.add_assoc; simpl.

(** Lookups among them. *)
Ltac added :=
  repeat first [rewrite lookup_new | rewrite lookup_new0 | progress simpl].

(** A new object of [σ ++ l] is one of [l]. *)
Lemma lookup_added σ (l : list obj) i o :
  (σ ++ l) !! i = Some o → σ !! i = None →
  ∃ k, i = length σ + k ∧ l !! k = Some o.
Proof.
  intros [Hi|[Hle Hi]]%lookup_app_Some Hnone; [congruence|].
  exists (i - length σ). split; [lia | done].
Qed.

(** C1: for every configuration, the agent [DQNFromConfig] constructs has
    [min_observations] equal to [max(batch_size, min_replay_size)]; with
    [batch_size = 32] and [min_replay_size = 1000] it is [1000]. *)
Theorem min_observations_is_max σ c cfg environment_spec network a σ' :
  σ !! c = Some (OConfig cfg) →
  DQNFromConfig observations accepts environment_spec network c σ = (Ok a, σ') →
  ∃ ag, σ' !! a = Some (OAgent ag) ∧
        _min_observations ag
        = Some (Z.max (batch_size cfg) (min_replay_size cfg)).
Proof.
  intros Hc (q & Hq & -> & ->)%(DQNFromConfig_inv _ _ _ _ cfg); [|done].
  unfold_built.
  eexists. split; [by added | done].
Qed.

(** C2: for every configuration, the agent [DQNFromConfig] constructs has
    [observations_per_step] equal to [batch_size / samples_per_insert], the
    float quotient of the converted batch size; with [batch_size = 256] and
    [samples_per_insert = 0.5] it is [512.0]. *)
Theorem observations_per_step_is_quotient
    σ c cfg environment_spec network a σ' :
  σ !! c = Some (OConfig cfg) →
  DQNFromConfig observations accepts environment_spec network c σ = (Ok a, σ') →
  ∃ ag b, σ' !! a = Some (OAgent ag) ∧
          float_of_int (batch_size cfg) = Ok b ∧
          _observations_per_step ag
          = Some (b / samples_per_insert cfg)%float.
Proof.
  intros Hc (q & Hq & -> & ->)%(DQNFromConfig_inv _ _ _ _ cfg); [|done].
  unfold_built.
  unfold truediv in Hq.
  destruct (float_of_int (batch_size cfg)) as [b|]; [|done].
  destruct (samples_per_insert cfg =? 0)%float; [done|].
  injection Hq as <-. eexists _, b.
  split_and!; [by added | done..].
Qed.

(** C4: for every configuration the delegated constructors accept, the
    construction yields an agent with a learner and an actor, and one replay
    server, new in the store: the learner's data iterator, the learner's
    replay client and the actor's adder are handles onto it, no other server,
    learner or actor is created, and the actor reaches the learner through
    its variable client only. *)
Theorem learner_and_actor_share_one_replay
    σ c cfg environment_spec network a σ' :
  σ !! c = Some (OConfig cfg) →
  DQNFromConfig observations accepts environment_spec network c σ = (Ok a, σ') →
  share_one_replay σ σ' a.
Proof.
  intros Hc (q & Hq & -> & ->)%(DQNFromConfig_inv _ _ _ _ cfg); [|done].
  unfold share_one_replay. unfold_built.
  do 7 eexists. split_and!; try (added; reflexivity).
  - apply lookup_ge_None. lia.
  - intros i args' Hi Hnone.
    destruct (lookup_added _ _ _ _ Hi Hnone) as (k & -> & Hk).
    do 10 (destruct k as [|k]; [simplify_eq/=; try lia|]). done.
  - intros i L' Hi Hnone.
    destruct (lookup_added _ _ _ _ Hi Hnone) as (k & -> & Hk).
    do 10 (destruct k as [|k]; [simplify_eq/=; try lia|]). done.
  - intros i A' Hi Hnone.
    destruct (lookup_added _ _ _ _ Hi Hnone) as (k & -> & Hk).
    do 10 (destruct k as [|k]; [simplify_eq/=; try lia|]). done.
  - eexists. by added.
  - apply lookup_lt_Some in Hc. unfold actor_refs. simpl.
    rewrite !not_elem_of_cons, elem_of_nil. lia.
Qed.

(** C6: for every configuration, the optimizer [DQNFromConfig] hands to the
    learner is the chain of the clipping to [max_gradient_norm] followed by
    Adam with [learning_rate]: an update goes through the clipping first and
    through Adam second. *)
Theorem optimizer_clips_then_adam σ c cfg environment_spec network a σ' :
  σ !! c = Some (OConfig cfg) →
  DQNFromConfig observations accepts environment_spec network c σ = (Ok a, σ') →
  clips_then_adam cfg σ' a.
Proof.
  intros Hc (q & Hq & -> & ->)%(DQNFromConfig_inv _ _ _ _ cfg); [|done].
  unfold clips_then_adam. unfold_built.
  do 3 eexists. split_and!; added; reflexivity.
Qed.

(** C10: for every configuration, the random sequence of the learner and the
    random sequence of the actor are two sequences seeded with [config.seed],
    and every random sequence the construction creates has that seed. *)
Theorem both_sequences_use_the_seed σ c cfg environment_spec network a σ' :
  σ !! c = Some (OConfig cfg) →
  DQNFromConfig observations accepts environment_spec network c σ = (Ok a, σ') →
  seeded_by_config cfg σ σ' a.
Proof.
  intros Hc (q & Hq & -> & ->)%(DQNFromConfig_inv _ _ _ _ cfg); [|done].
  unfold seeded_by_config. unfold_built.
  do 5 eexists. split_and!; try (added; reflexivity).
  - simpl. lia.
  - intros i sd Hi Hnone.
    destruct (lookup_added _ _ _ _ Hi Hnone) as (k & -> & Hk).
    do 10 (destruct k as [|k]; [by simplify_eq/=|]). done.
Qed.

(** The record [DQN] packs is the record of the same keywords. *)
Lemma packed_config kw :
  DQNConfig_init (DQN_config kw) = DQNConfig_init (equivalent_config kw).
Proof. by destruct kw. Qed.

Lemma DQN_init_forwards self environment_spec network kw τ :
  DQN_init observations accepts self environment_spec network kw τ
  = (do config <- DQNConfig_new (equivalent_config kw);
     DQNFromConfig_init observations accepts self environment_spec network
       config) τ.
Proof. unfold DQN_init, DQNConfig_new. by rewrite packed_config. Qed.

Lemma DQN_inv σ environment_spec network kw a σ' :
  DQN observations accepts environment_spec network kw σ = (Ok a, σ') →
  let cfg := DQNConfig_init (DQN_config kw) in
  ∃ q, truediv (batch_size cfg) (samples_per_insert cfg) = Ok q ∧
       a = length σ ∧
       σ' = σ ++ OAgent (assembled cfg (length σ + 2) q)
              :: OConfig cfg
              :: wiring observations environment_spec network (length σ + 1)
                   cfg (length σ + 2).
Proof.
  intros Hrun cfg. revert Hrun.
  unfold DQN, DQN_init, DQNConfig_new, bind, new, ret. fold cfg.
  destruct (DQNFromConfig_init _ _ _ _ _ _ _) as [[[]|e] τ'] eqn:Hinit;
    intros [= <- <-].
  eapply (DQNFromConfig_init_inv _ _ _ _ _ _ cfg) in Hinit as (q & Hq & ->).
  - exists q. split_and!; [done..|].
    rewrite <- !app_assoc. simpl. rewrite insert_new0.
    rewrite !length_app. simpl.
    by rewrite <- app_assoc.
  - rewrite <- app_assoc. by rewrite lookup_new0.
  - by rewrite lookup_new0.
Qed.

(** C3: for every set of keyword values, the agent the legacy constructor
    [DQN] produces and the agent [DQNFromConfig] produces from the record of
    the same keywords have the same resulting configuration, and
    [DQN.__init__] is [DQNFromConfig.__init__] run on that record. *)
Theorem legacy_constructor_agrees_with_primary
    σ environment_spec network kw a σ1 a' σ2 :
  DQN observations accepts environment_spec network kw σ = (Ok a, σ1) →
  primary_with_equivalent_config observations accepts environment_spec
    network kw σ = (Ok a', σ2) →
  is_Some (agent_view σ1 a) ∧
  agent_view σ1 a = agent_view σ2 a' ∧
  ∀ self τ,
    DQN_init observations accepts self environment_spec network kw τ
    = (do config <- DQNConfig_new (equivalent_config kw);
       DQNFromConfig_init observations accepts self environment_spec network
         config) τ.
Proof.
  intros Hlegacy Hprimary.
  apply and_assoc. split; [|intros; apply DQN_init_forwards].
  revert Hlegacy Hprimary.
  intros (q & Hq & -> & ->)%DQN_inv. rewrite packed_config in *.
  unfold primary_with_equivalent_config, DQNConfig_new, bind, new.
  intros (q' & Hq' & -> & ->)%(DQNFromConfig_inv _ _ _ _
    (DQNConfig_init (equivalent_config kw))); [|by rewrite lookup_new0].
  assert (q' = q) as -> by congruence.
  generalize (DQNConfig_init (equivalent_config kw)). clear Hq Hq'. intros cfg.
  rewrite <- app_assoc, length_app.
  unfold_built.
  repeat (progress (unfold agent_view, actor_view, learner_view, server_at,
                      server_of_client, server_of_adder, server_of_iterator,
                      seed_at, config_at;
                    rewrite ?lookup_new, ?lookup_new0; simpl)).
  split; [by eexists | done].
Qed.

(** C7, as the code has it: [DQNConfig] is a plain dataclass, not a frozen
    one. The constructors only read configuration records: whatever
    [DQNFromConfig] or [DQN] do, returning or raising, a record of the store
    is left as it was, and the record [DQN] creates holds the packed values
    when it stops. An assignment to a field through the record's interface
    does succeed and replaces the value. *)
Theorem constructors_only_read_the_configuration
    σ c cfg environment_spec network :
  σ !! c = Some (OConfig cfg) →
  (DQNFromConfig observations accepts environment_spec network c σ).2 !! c = Some (OConfig cfg) ∧
  (∀ kw,
     (DQN observations accepts environment_spec network kw σ).2 !! c = Some (OConfig cfg) ∧
     (DQN observations accepts environment_spec network kw σ).2 !! (length σ + 1)
     = Some (OConfig (DQNConfig_init (DQN_config kw)))) ∧
  ∀ asg : assignment,
    setattr (EnvironmentSpec := EnvironmentSpec) (ObsSpec := ObsSpec)
      (Network := Network) c asg σ
    = (Ok tt, <[c := OConfig (assign asg cfg)]> σ).
Proof.
  intros Hc. split_and!.
  - by apply keeps_DQNFromConfig.
  - intros kw. split; [by apply keeps_DQN|].
    unfold DQN, DQN_init, DQNConfig_new, bind, new, ret.
    pose proof (keeps_DQNFromConfig_init observations accepts (length σ)
      environment_spec network (length (σ ++ [OAgent blank]))
      ((σ ++ [OAgent blank]) ++ [OConfig (DQNConfig_init (DQN_config kw))])
      (length σ + 1) (DQNConfig_init (DQN_config kw))) as Hkept.
    destruct (DQNFromConfig_init _ _ _ _ _ _ _) as [[[]|e] τ']; apply Hkept;
      rewrite <- app_assoc; by rewrite lookup_new.
  - intros asg. unfold setattr. by rewrite Hc.
Qed.

(** C8, as the code has it: the keywords of the legacy constructor are the
    fields of [DQNConfig] other than [max_gradient_norm], with the defaults of
    the fields. Every record that leaves [max_gradient_norm] at its default
    can be obtained through [DQN]; [max_gradient_norm] itself is always the
    default, infinity. *)
Theorem legacy_keywords_are_the_fields_but_max_gradient_norm :
  (∀ f : string,
     f ∈ DQN_keywords ↔
     f ∈ DQNConfig_fields ∧ f ≠ "max_gradient_norm"%string) ∧
  (∀ ckw, k_max_gradient_norm ckw = None →
          ∃ kw, DQNConfig_init (DQN_config kw) = DQNConfig_init ckw) ∧
  (∀ kw, max_gradient_norm (DQNConfig_init (DQN_config kw)) = infinity) ∧
  DQNConfig_init
    (DQN_config (Build_DQN_kwargs None None None None None None None
                                  None None None None None None))
  = DQNConfig_init no_kwargs.
Proof.
  split_and!; [| | done..].
  - intros f. unfold DQN_keywords, DQNConfig_fields.
    rewrite !elem_of_cons, !elem_of_nil. split.
    + intros Hf. destruct_or!; subst; (split; [tauto | discriminate]).
    + intros [Hf Hne]. destruct_or!; subst; tauto.
  - intros [e spi sd lr d n tup mgn b mn mx ise pe pf]. simpl. intros ->.
    by exists (Build_DQN_kwargs b pf tup spi mn mx ise pe n e lr d sd).
Qed.

(** C9: for every two configurations that differ only in [prefetch_size],
    [DQNFromConfig] returns the same result and builds a store that differs
    only by the configuration record itself: no component it constructs
    depends on [prefetch_size]. *)
Theorem prefetch_size_has_no_effect σ c cfg cfg' environment_spec network :
  σ !! c = Some (OConfig cfg) →
  differ_only_in_prefetch_size cfg cfg' →
  ∃ r σ',
    DQNFromConfig observations accepts environment_spec network c σ = (r, σ') ∧
    DQNFromConfig observations accepts environment_spec network c (<[c := OConfig cfg']> σ)
    = (r, <[c := OConfig cfg']> σ') ∧
    ∀ i, i ≠ c → (<[c := OConfig cfg']> σ') !! i = σ' !! i.
Proof.
  intros Hc Hsame.
  destruct (blind_DQNFromConfig observations accepts c cfg cfg' Hsame
              environment_spec network σ Hc) as [_ Hrun].
  eexists _, _. split_and!; [apply surjective_pairing | exact Hrun |].
  intros i Hi. by rewrite list_lookup_insert_ne.
Qed.

End Claims.

Section PolicyClaim.
Context {EnvironmentSpec ObsSpec Network : Type}.
Context {Params Observation Key Value : Type}.
Variable observations : EnvironmentSpec → ObsSpec.
Variable accepts : obj EnvironmentSpec ObsSpec Network → bool.
Variable apply : Network → Params → Observation → list Value.
Variable le : Value → Value → bool.
Variable uniform : Key → float.
Variable randint : Key → nat → nat.

(** C5: when the configured [epsilon] is zero, the policy closure of the
    constructed actor returns, for every parameter set, every key (whose
    uniform draw is not negative) and every observation, an action whose
    value is the largest of the network's output. The action values are
    totally preordered by [le]. *)
Theorem policy_is_greedy_when_epsilon_is_zero
    (σ : store EnvironmentSpec ObsSpec Network) c cfg environment_spec
    network a σ' (params : Params) (key : Key) (observation : Observation) :
  (∀ v w, le v w = true ∨ le w v = true) →
  (∀ u v w, le u v = true → le v w = true → le u w = true) →
  σ !! c = Some (OConfig cfg) →
  (epsilon cfg =? 0)%float = true →
  DQNFromConfig observations accepts environment_spec network c σ
    = (Ok a, σ') →
  (0 <=? uniform key)%float = true →
  apply network params observation ≠ [] →
  selects_largest apply le uniform randint σ' a (apply network params observation) params key
    observation.
Proof.
  intros Htotal Htrans Hc Heps Hrun Hkey Hvalues.
  destruct (argmax_largest le Htotal Htrans _ Hvalues) as (m & Hm & Hlargest).
  pose proof (keeps_DQNFromConfig observations accepts environment_spec
                network c σ c cfg Hc) as Hc'.
  rewrite Hrun in Hc'. simpl in Hc'.
  apply (DQNFromConfig_inv _ _ _ _ cfg) in Hrun as (q & Hq & -> & ->);
    [|done].
  exists (assembled cfg (length σ + 1) q), (length σ + 1 + 8).
  eexists _, (argmax le (apply network params observation)), m.
  split_and!; [by rewrite lookup_new0 | done | | | done..].
  - rewrite <- !Nat.add_assoc, lookup_new. reflexivity.
  - simpl. unfold bind, getattr. rewrite Hc'. unfold ret.
    unfold epsilon_greedy_sample.
    by rewrite (zero_epsilon_never_explores _ _ Heps Hkey).
Qed.

End PolicyClaim.

(** * The claims on concrete runs *)

(** The construction from a record with [batch_size = 32] and
    [min_replay_size = 1000]: the agent is object 1 and its
    [min_observations] is 1000. *)
Lemma min_observations_of_32_and_1000 :
  ∃ ag,
    (DQNFromConfig Run.observations Run.accepts tt tt 0
       (Run.σ0 (Run.config 32 1000 0.5 0.05))).2 !! 1 = Some (OAgent ag) ∧
    _min_observations ag = Some 1000%Z.
Proof.
  apply (min_observations_is_max Run.observations Run.accepts
           (Run.σ0 (Run.config 32 1000 0.5 0.05)) 0
           (Run.config 32 1000 0.5 0.05) tt tt 1 _ eq_refl).
  vm_compute. reflexivity.
Defined.

(** The construction from a record with [batch_size = 256] and
    [samples_per_insert = 0.5]: [observations_per_step] is 512.0. *)
Lemma observations_per_step_of_256_and_half :
  ∃ ag,
    (DQNFromConfig Run.observations Run.accepts tt tt 0
       (Run.σ0 (Run.config 256 1000 0.5 0.05))).2 !! 1 = Some (OAgent ag) ∧
    _observations_per_step ag = Some 512%float.
Proof.
  destruct (observations_per_step_is_quotient Run.observations Run.accepts
              (Run.σ0 (Run.config 256 1000 0.5 0.05)) 0
              (Run.config 256 1000 0.5 0.05) tt tt 1
              (DQNFromConfig Run.observations Run.accepts tt tt 0
                 (Run.σ0 (Run.config 256 1000 0.5 0.05))).2 eq_refl)
    as (ag & b & Hag & Hb & Hq).
  - vm_compute. reflexivity.
  - exists ag. split; [exact Hag|].
    vm_compute in Hb. injection Hb as <-. exact Hq.
Defined.

(** [DQN(batch_size=32, seed=7)] and [DQNFromConfig] on
    [DQNConfig(batch_size=32, seed=7)], both from the empty store. *)
Lemma legacy_agrees_on_batch_32_seed_7 :
  is_Some (agent_view (DQN Run.observations Run.accepts tt tt Run.kwargs []).2 0) ∧
  agent_view (DQN Run.observations Run.accepts tt tt Run.kwargs []).2 0
  = agent_view
      (primary_with_equivalent_config Run.observations Run.accepts tt tt
         Run.kwargs []).2 1.
Proof.
  destruct (legacy_constructor_agrees_with_primary Run.observations
              Run.accepts [] tt tt Run.kwargs 0
              (DQN Run.observations Run.accepts tt tt Run.kwargs []).2 1
              (primary_with_equivalent_config Run.observations Run.accepts
                 tt tt Run.kwargs []).2)
    as (Hsome & Hsame & _).
  - vm_compute. reflexivity.
  - vm_compute. reflexivity.
  - split; [exact Hsome | exact Hsame].
Defined.

(** The default configuration: object 2 is the one replay server. *)
Lemma default_run_shares_one_replay :
  share_one_replay (Run.σ0 (DQNConfig_init no_kwargs))
    (DQNFromConfig Run.observations Run.accepts tt tt 0
       (Run.σ0 (DQNConfig_init no_kwargs))).2 1.
Proof.
  apply (learner_and_actor_share_one_replay Run.observations Run.accepts
           (Run.σ0 (DQNConfig_init no_kwargs)) 0 (DQNConfig_init no_kwargs)
           tt tt 1 _ eq_refl).
  vm_compute. reflexivity.
Defined.

(** [epsilon = 0], action values [3; 9; 2; 9] and a key whose uniform draw is
    0.3: the policy returns an action of value 9. *)
Lemma zero_epsilon_picks_a_largest_value :
  selects_largest Run.apply Z.leb Run.uniform Run.randint
    (DQNFromConfig Run.observations Run.accepts tt tt 0
       (Run.σ0 (Run.config 256 1000 0.5 0))).2 1
    [3; 9; 2; 9]%Z tt (0.3%float, 5) [3; 9; 2; 9]%Z.
Proof.
  apply (policy_is_greedy_when_epsilon_is_zero Run.observations Run.accepts
           Run.apply Z.leb Run.uniform Run.randint
           (Run.σ0 (Run.config 256 1000 0.5 0)) 0
           (Run.config 256 1000 0.5 0) tt tt 1 _ tt (0.3%float, 5)
           [3; 9; 2; 9]%Z).
  - intros v w. destruct (Z.leb_spec v w), (Z.leb_spec w v); auto; lia.
  - intros u v w Huv%Z.leb_le Hvw%Z.leb_le. apply Z.leb_le. lia.
  - reflexivity.
  - vm_compute. reflexivity.
  - vm_compute. reflexivity.
  - vm_compute. reflexivity.
  - discriminate.
Defined.

(** The default configuration: clip to infinity, then Adam with 0.001. *)
Lemma default_run_clips_then_adam :
  clips_then_adam (DQNConfig_init no_kwargs)
    (DQNFromConfig Run.observations Run.accepts tt tt 0
       (Run.σ0 (DQNConfig_init no_kwargs))).2 1.
Proof.
  apply (optimizer_clips_then_adam Run.observations Run.accepts
           (Run.σ0 (DQNConfig_init no_kwargs)) 0 (DQNConfig_init no_kwargs)
           tt tt 1 _ eq_refl).
  vm_compute. reflexivity.
Defined.

(** A field of a configuration record is reassigned through its interface:
    after [config.batch_size = 1] the record holds 1 where it held 256. *)
Lemma a_configuration_field_is_reassigned :
  setattr (EnvironmentSpec := unit) (ObsSpec := unit) (Network := unit)
    0 (set_batch_size 1) (Run.σ0 (DQNConfig_init no_kwargs))
  = (Ok tt, Run.σ0 (assign (set_batch_size 1) (DQNConfig_init no_kwargs))) ∧
  batch_size (DQNConfig_init no_kwargs) = 256%Z ∧
  batch_size (assign (set_batch_size 1) (DQNConfig_init no_kwargs)) = 1%Z.
Proof. by split_and!. Qed.

(** The default configuration is left as it was by both constructors. *)
Lemma default_configuration_is_kept :
  (DQNFromConfig Run.observations Run.accepts tt tt 0
     (Run.σ0 (DQNConfig_init no_kwargs))).2 !! 0
  = Some (OConfig (DQNConfig_init no_kwargs)) ∧
  (DQN Run.observations Run.accepts tt tt Run.kwargs
     (Run.σ0 (DQNConfig_init no_kwargs))).2 !! 0
  = Some (OConfig (DQNConfig_init no_kwargs)).
Proof.
  destruct (constructors_only_read_the_configuration Run.observations
              Run.accepts (Run.σ0 (DQNConfig_init no_kwargs)) 0
              (DQNConfig_init no_kwargs) tt tt eq_refl)
    as (Hprimary & Hlegacy & _).
  split; [exact Hprimary | exact (proj1 (Hlegacy Run.kwargs))].
Defined.

(** [max_gradient_norm] is a field of the record and no keyword of [DQN]:
    no keywords make [DQN] pack a record whose [max_gradient_norm] is 1.0. *)
Lemma max_gradient_norm_is_not_a_keyword :
  "max_gradient_norm"%string ∈ DQNConfig_fields ∧
  ("max_gradient_norm"%string ∉ DQN_keywords) ∧
  ¬ ∃ kw, max_gradient_norm (DQNConfig_init (DQN_config kw)) = 1%float.
Proof.
  split_and!.
  - unfold DQNConfig_fields. rewrite !elem_of_cons. tauto.
  - unfold DQN_keywords. rewrite !not_elem_of_cons, elem_of_nil.
    split_and!; first [discriminate | tauto].
  - intros [kw Hkw]. simpl in Hkw.
    apply (f_equal is_infinity) in Hkw. vm_compute in Hkw. discriminate.
Qed.

(** Prefetch sizes 4 and 64: the same agent. *)
Lemma prefetch_4_and_64_build_the_same :
  ∃ r σ',
    DQNFromConfig Run.observations Run.accepts tt tt 0
      (Run.σ0 (DQNConfig_init no_kwargs)) = (r, σ') ∧
    DQNFromConfig Run.observations Run.accepts tt tt 0
      (<[0 := OConfig (assign (set_prefetch_size 64) (DQNConfig_init no_kwargs))]>
         (Run.σ0 (DQNConfig_init no_kwargs)))
    = (r, <[0 := OConfig (assign (set_prefetch_size 64)
                            (DQNConfig_init no_kwargs))]> σ') ∧
    ∀ i, i ≠ 0 →
      (<[0 := OConfig (assign (set_prefetch_size 64)
                         (DQNConfig_init no_kwargs))]> σ') !! i = σ' !! i.
Proof.
  apply (prefetch_size_has_no_effect Run.observations Run.accepts
           (Run.σ0 (DQNConfig_init no_kwargs)) 0 (DQNConfig_init no_kwargs)
           (assign (set_prefetch_size 64) (DQNConfig_init no_kwargs)) tt tt
           eq_refl).
  by repeat split.
Defined.

(** Seed 7: both sequences start from 7. *)
Lemma seed_7_seeds_both_sequences :
  seeded_by_config (DQNConfig_init (DQN_config Run.kwargs))
    (Run.σ0 (DQNConfig_init (DQN_config Run.kwargs)))
    (DQNFromConfig Run.observations Run.accepts tt tt 0
       (Run.σ0 (DQNConfig_init (DQN_config Run.kwargs)))).2 1.
Proof.
  apply (both_sequences_use_the_seed Run.observations Run.accepts
           (Run.σ0 (DQNConfig_init (DQN_config Run.kwargs))) 0
           (DQNConfig_init (DQN_config Run.kwargs)) tt tt 1 _ eq_refl).
  vm_compute. reflexivity.
Defined.

(** * Further properties of the constructors *)

Section FurtherProperties.
Context {EnvironmentSpec ObsSpec Network : Type}.
Variable observations : EnvironmentSpec → ObsSpec.
Variable accepts : obj EnvironmentSpec ObsSpec Network → bool.

Local Abbreviation obj := (obj EnvironmentSpec ObsSpec Network).
Local Abbreviation store := (store EnvironmentSpec ObsSpec Network).
Local Abbreviation M := (M EnvironmentSpec ObsSpec Network).

Implicit Types (σ τ : store) (o : obj) (l : list obj) (c self : loc).
Implicit Types (cfg : DQNConfig) (ag : Agent).
Implicit Types (environment_spec : EnvironmentSpec) (network : Network).

(** ** The constructors only allocate *)

Section Extends.
Variables (τ : store) (self : loc) (ag0 : Agent).
Hypothesis Hself : τ !! self = Some (OAgent ag0).

Lemma extends_ret {A} (a : A) : only_extends τ self (ret a : M A).
Proof. intros ag l. exists ag, []. by rewrite app_nil_r. Qed.

Lemma extends_lift {A} (r : result A) : only_extends τ self (lift r : M A).
Proof. intros ag l. exists ag, []. by rewrite app_nil_r. Qed.

Lemma extends_getattr {A} c (field : DQNConfig → A) :
  only_extends τ self (getattr c field : M A).
Proof.
  intros ag l. exists ag, []. rewrite app_nil_r. unfold getattr.
  by destruct (during τ self ag l !! c) as [[]|].
Qed.

Lemma extends_new o : only_extends τ self (new o).
Proof. intros ag l. exists ag, [o]. by rewrite new_during. Qed.

Lemma extends_construct o : only_extends τ self (construct accepts o).
Proof.
  intros ag l. rewrite construct_during. destruct (accepts o).
  - by exists ag, [o].
  - exists ag, []. by rewrite app_nil_r.
Qed.

Lemma extends_set_server srv : only_extends τ self (set_server self srv : M unit).
Proof using Hself.
  intros ag l. rewrite (set_server_during _ _ _ Hself).
  eexists _, []. by rewrite app_nil_r.
Qed.

Lemma extends_Agent_init actor learner mo ops :
  only_extends τ self (Agent_init accepts self actor learner mo ops).
Proof using Hself.
  intros ag l. rewrite (Agent_init_during accepts _ _ _ Hself).
  destruct (accepts _); eexists _, []; by rewrite app_nil_r.
Qed.

Lemma extends_bind {A B} (m : M A) (f : A → M B) :
  only_extends τ self m → (∀ a, only_extends τ self (f a)) →
  only_extends τ self (bind m f).
Proof.
  intros Hm Hf ag l. unfold bind.
  destruct (Hm ag l) as (ag1 & l1 & Hrun).
  destruct (m (during τ self ag l)) as [[a|e] σ1]; simpl in Hrun; subst σ1.
  - destruct (Hf a ag1 (l ++ l1)) as (ag2 & l2 & Hrun).
    exists ag2, (l1 ++ l2). by rewrite Hrun, app_assoc.
  - by exists ag1, l1.
Qed.

Lemma extends_DQNFromConfig_init environment_spec network c :
  only_extends τ self
    (DQNFromConfig_init observations accepts self environment_spec network c).
Proof using Hself.
  unfold DQNFromConfig_init, make_reverb_prioritized_nstep_replay.
  repeat first
    [ apply extends_bind; [| intros ?]
    | apply extends_ret | apply extends_lift | apply extends_getattr
    | apply extends_new | apply extends_construct
    | apply extends_set_server | apply extends_Agent_init ].
Qed.

End Extends.

(** The store when a call of [__init__] on a new instance stops. *)
Lemma init_on_new_instance σ l environment_spec network c :
  ∃ ag l',
    (DQNFromConfig_init observations accepts (length σ) environment_spec
       network c (σ ++ OAgent blank :: l)).2
    = σ ++ OAgent ag :: l ++ l'.
Proof.
  assert ((σ ++ OAgent blank :: l) !! length σ = Some (OAgent blank)) as Hself
    by (by rewrite lookup_new0).
  destruct (extends_DQNFromConfig_init _ _ _ Hself environment_spec network c
              blank []) as (ag & l' & Hrun).
  rewrite <- (during_start _ _ _ Hself) in Hrun. rewrite Hrun.
  exists ag, l'. unfold during. rewrite insert_new0, <- app_assoc. done.
Qed.

(** X1: whatever the arguments, and whether the call returns or raises,
    [DQNFromConfig] and [DQN] leave every object of the store they start from
    as it was: the store they stop with is that store followed by the new
    instance (and, for [DQN], the record it packs) and the objects built. *)
Theorem constructors_only_allocate σ environment_spec network c :
  (∃ ag l,
     (DQNFromConfig observations accepts environment_spec network c σ).2
     = σ ++ OAgent ag :: l) ∧
  (∀ kw, ∃ ag l,
     (DQN observations accepts environment_spec network kw σ).2
     = σ ++ OAgent ag :: OConfig (DQNConfig_init (DQN_config kw)) :: l).
Proof.
  split.
  - destruct (init_on_new_instance σ [] environment_spec network c)
      as (ag & l & Hrun).
    exists ag, l. unfold DQNFromConfig, bind, new, ret.
    by destruct (DQNFromConfig_init _ _ _ _ _ _ _) as [[[]|e] τ'].
  - intros kw.
    destruct (init_on_new_instance σ [OConfig (DQNConfig_init (DQN_config kw))]
                environment_spec network (length σ + 1)) as (ag & l & Hrun).
    exists ag, l. unfold DQN, DQN_init, DQNConfig_new, bind, new, ret.
    rewrite <- app_assoc, length_app. simpl.
    by destruct (DQNFromConfig_init _ _ _ _ _ _ _) as [[[]|e] τ'].
Qed.

(** ** When the construction returns, and what a failure leaves *)

Ltac step Hself Hc :=
  repeat first
    [ progress cbv beta iota
    | rewrite (getattr_during _ _ _ _ _ Hself Hc)
    | rewrite new_during
    | rewrite construct_during
    | rewrite (set_server_during _ _ _ Hself)
    | rewrite (Agent_init_during accepts _ _ _ Hself)
    | rewrite Nat.add_0_r
    | progress cbn [length app Nat.add server client adder data_iterator
                    _server _actor _learner _min_observations
                    _observations_per_step] ].

Lemma DQNFromConfig_init_returns τ self c ag0 cfg environment_spec network :
  τ !! self = Some (OAgent ag0) →
  τ !! c = Some (OConfig cfg) →
  (∃ τ', DQNFromConfig_init observations accepts self environment_spec
           network c τ = (Ok tt, τ')) ↔
  ∃ q, truediv (batch_size cfg) (samples_per_insert cfg) = Ok q ∧
       Forall (λ o, accepts o = true)
         (delegated observations environment_spec network c cfg (length τ)
          ++ [OAgent (assembled cfg (length τ) q)]).
Proof.
  intros Hself Hc. unfold delegated, wiring, assembled.
  cbn [List.filter is_handle negb app]. split.
  - intros [τ' Hrun]. revert Hrun.
    rewrite (during_start τ self ag0 Hself) at 1.
    unfold DQNFromConfig_init, make_reverb_prioritized_nstep_replay, bind,
      ret, lift.
    step Hself Hc.
    repeat match goal with
           | |- context [accepts ?o] =>
               destruct (accepts o) eqn:?; [step Hself Hc | by intros [=]]
           end.
    destruct (truediv _ _) as [q|]; [step Hself Hc | step Hself Hc; by intros [=]].
    match goal with
    | |- context [accepts ?o] => destruct (accepts o) eqn:?; [|by intros [=]]
    end.
    intros _. exists q. split; [done|].
    repeat (apply Forall_cons; split; [assumption|]). apply Forall_nil_2.
  - intros (q & Hq & Hall).
    do 7 (apply Forall_cons in Hall as [? Hall]). clear Hall.
    eexists. rewrite (during_start τ self ag0 Hself) at 1.
    unfold DQNFromConfig_init, make_reverb_prioritized_nstep_replay, bind,
      ret, lift.
    step Hself Hc.
    repeat match goal with
           | H : accepts ?o = true |- context [accepts ?o] =>
               rewrite H; step Hself Hc
           end.
    rewrite Hq. step Hself Hc.
    match goal with
    | H : accepts ?o = true |- context [accepts ?o] => rewrite H
    end.
    reflexivity.
Qed.

(** X2: [DQNFromConfig] returns an agent exactly when the quotient
    [batch_size / samples_per_insert] is defined and every delegated
    constructor accepts what it is asked for: the module itself rejects
    nothing else. *)
Theorem construction_returns_iff σ c cfg environment_spec network :
  σ !! c = Some (OConfig cfg) →
  (∃ a σ', DQNFromConfig observations accepts environment_spec network c σ
           = (Ok a, σ')) ↔
  ∃ q, truediv (batch_size cfg) (samples_per_insert cfg) = Ok q ∧
       Forall (λ o, accepts o = true)
         (delegated observations environment_spec network c cfg (length σ + 1)
          ++ [OAgent (assembled cfg (length σ + 1) q)]).
Proof.
  intros Hc.
  pose proof (DQNFromConfig_init_returns (σ ++ [OAgent blank]) (length σ) c
                blank cfg environment_spec network) as Hinit.
  rewrite length_app in Hinit. cbn [length] in Hinit.
  rewrite <- Hinit; [| by rewrite lookup_new0 | by apply lookup_old].
  unfold DQNFromConfig, bind, new, ret. split.
  - intros (a & σ' & Hrun).
    destruct (DQNFromConfig_init _ _ _ _ _ _ _) as [[[]|e] τ'];
      [by eexists | discriminate].
  - intros [τ' ->]. by eexists _, _.
Qed.

Lemma DQNFromConfig_init_division_error
    τ self c cfg environment_spec network e :
  τ !! self = Some (OAgent blank) →
  τ !! c = Some (OConfig cfg) →
  truediv (batch_size cfg) (samples_per_insert cfg) = Raise e →
  Forall (λ o, accepts o = true)
    (delegated observations environment_spec network c cfg (length τ)) →
  DQNFromConfig_init observations accepts self environment_spec network c τ
  = (Raise e, <[self := OAgent (half_built (length τ))]> τ
              ++ wiring observations environment_spec network c cfg (length τ)).
Proof.
  intros Hself Hc Hq Hall. unfold delegated, wiring in Hall.
  cbn [List.filter is_handle negb app] in Hall.
  do 6 (apply Forall_cons in Hall as [? Hall]). clear Hall.
  rewrite (during_start τ self blank Hself) at 1.
  unfold DQNFromConfig_init, make_reverb_prioritized_nstep_replay, bind,
    ret, lift.
  step Hself Hc.
  repeat match goal with
         | H : accepts ?o = true |- context [accepts ?o] =>
             rewrite H; step Hself Hc
         end.
  rewrite Hq. step Hself Hc. reflexivity.
Qed.

(** X3: when the quotient [batch_size / samples_per_insert] raises (a zero
    [samples_per_insert], a [batch_size] beyond the floats), no agent is
    returned; and when the delegated constructors accept, the exception is
    the one of the division and it is raised last: the replay server, the
    learner and the actor are in the store, and the instance has its
    [_server] and nothing else. *)
Theorem division_error_comes_after_the_wiring
    σ c cfg environment_spec network e :
  σ !! c = Some (OConfig cfg) →
  truediv (batch_size cfg) (samples_per_insert cfg) = Raise e →
  (∀ a σ', DQNFromConfig observations accepts environment_spec network c σ
           ≠ (Ok a, σ')) ∧
  (Forall (λ o, accepts o = true)
     (delegated observations environment_spec network c cfg (length σ + 1)) →
   DQNFromConfig observations accepts environment_spec network c σ
   = (Raise e,
      σ ++ OAgent (half_built (length σ + 1))
        :: wiring observations environment_spec network c cfg (length σ + 1))).
Proof.
  intros Hc Hq. split.
  - intros a σ' (q & Hq' & _)%(DQNFromConfig_inv _ _ _ _ cfg); [|done].
    congruence.
  - intros Hall. unfold DQNFromConfig, bind, new, ret.
    rewrite (DQNFromConfig_init_division_error _ _ c cfg _ _ e);
      [| by rewrite lookup_new0 | by apply lookup_old | done
       | by rewrite length_app ].
    by rewrite length_app, insert_new0, <- app_assoc.
Qed.


(** ** What is read at construction, and what the agent is made of *)

Lemma blind_to_unread_fields c cfg cfg' environment_spec network :
  same_fields_read cfg cfg' →
  prefetch_blind c cfg cfg'
    (DQNFromConfig observations accepts environment_spec network c).
Proof.
  intros Hread.
  unfold DQNFromConfig, DQNFromConfig_init,
    make_reverb_prioritized_nstep_replay.
  repeat first
    [ apply blind_bind; [| intros ?]
    | apply blind_ret | apply blind_lift | apply blind_new
    | apply blind_construct | apply blind_set_server | apply blind_Agent_init
    | apply blind_getattr; apply Hread ].
Qed.

(** X5: [config.epsilon] is not read while the agent is constructed, no more
    than [config.prefetch_size]: from two records that agree on the other
    twelve fields, [DQNFromConfig] returns the same result and stores that
    differ by the record alone. *)
Theorem epsilon_is_not_read_at_construction
    σ c cfg cfg' environment_spec network :
  σ !! c = Some (OConfig cfg) →
  same_fields_read cfg cfg' →
  ∃ r σ',
    DQNFromConfig observations accepts environment_spec network c σ = (r, σ') ∧
    DQNFromConfig observations accepts environment_spec network c
      (<[c := OConfig cfg']> σ)
    = (r, <[c := OConfig cfg']> σ').
Proof.
  intros Hc Hread.
  destruct (blind_to_unread_fields c cfg cfg' environment_spec network Hread
              σ Hc) as [_ Hrun].
  eexists _, _. split; [apply surjective_pairing | exact Hrun].
Qed.

(** References are followed in [σ ++ l] at the new locations. *)
Ltac follow :=
  repeat (progress (unfold agent_view, actor_view, learner_view, server_at,
                      server_of_client, server_of_adder, server_of_iterator,
                      seed_at, config_at;
                    rewrite ?lookup_new, ?lookup_new0; simpl)).

(** X6: the agent [DQNFromConfig] returns, references followed, is a function
    of the environment specification, the network and the values of the
    record, whatever the addresses: one replay, built from [n_step],
    [batch_size], the replay sizes, [priority_exponent] and [discount], stands
    behind the server, the learner's iterator and client and the actor's
    adder; the learner has the same [discount]; the actor's variable client
    reads from that learner under the empty key. *)
Theorem resulting_configuration σ c cfg environment_spec network a σ' :
  σ !! c = Some (OConfig cfg) →
  DQNFromConfig observations accepts environment_spec network c σ
    = (Ok a, σ') →
  ∃ q, truediv (batch_size cfg) (samples_per_insert cfg) = Ok q ∧
       agent_view σ' a
       = Some (configuration_of observations environment_spec network cfg q).
Proof.
  intros Hc (q & Hq & -> & ->)%(DQNFromConfig_inv _ _ _ _ cfg); [|done].
  exists q. split; [done|].
  unfold built, wiring, assembled. rewrite <- ?Nat.add_assoc. simpl.
  unfold agent_view at 1. rewrite lookup_new0. simpl.
  unfold actor_view at 1. rewrite lookup_new. simpl.
  unfold config_at at 1. rewrite (lookup_old _ _ _ _ Hc). simpl.
  follow. reflexivity.
Qed.


(** X8: whatever its keywords, the agent [DQN] returns has an optimizer that
    never clips: its threshold is infinite, and Adam follows with the
    [learning_rate] keyword or its default. *)
Theorem legacy_agent_never_clips σ environment_spec network kw a σ' :
  DQN observations accepts environment_spec network kw σ = (Ok a, σ') →
  never_clips (default 1e-3%float (kw_learning_rate kw)) σ' a.
Proof.
  intros (q & Hq & -> & ->)%DQN_inv.
  unfold never_clips, wiring, assembled. rewrite <- ?Nat.add_assoc. simpl.
  do 3 eexists.
  split_and!;
    repeat first [rewrite lookup_new | rewrite lookup_new0 | progress simpl];
    reflexivity.
Qed.

End FurtherProperties.

Section FurtherPolicyProperties.
Context {EnvironmentSpec ObsSpec Network : Type}.
Context {Params Observation Key Value : Type}.
Variable observations : EnvironmentSpec → ObsSpec.
Variable accepts : obj EnvironmentSpec ObsSpec Network → bool.
Variable apply : Network → Params → Observation → list Value.
Variable le : Value → Value → bool.
Variable uniform : Key → float.
Variable randint : Key → nat → nat.


End FurtherPolicyProperties.

(** * The further properties on concrete runs *)

(** The default record, every constructor accepting: an agent is returned. *)
Lemma default_construction_returns :
  ∃ a σ',
    DQNFromConfig Run.observations Run.accepts tt tt 0
      (Run.σ0 (DQNConfig_init no_kwargs)) = (Ok a, σ').
Proof.
  apply (construction_returns_iff Run.observations Run.accepts
           (Run.σ0 (DQNConfig_init no_kwargs)) 0 (DQNConfig_init no_kwargs)
           tt tt eq_refl).
  exists 512%float. split; [by vm_compute|].
  repeat (apply Forall_cons; split; [reflexivity|]). apply Forall_nil_2.
Defined.

(** [samples_per_insert = 0]: [ZeroDivisionError], with the server (object
    2), the learner (7) and the actor (10) in the store. *)
Lemma zero_samples_per_insert_raises_last :
  DQNFromConfig Run.observations Run.accepts tt tt 0
    (Run.σ0 (Run.config 256 1000 0 0.05))
  = (Raise ZeroDivisionError,
     Run.σ0 (Run.config 256 1000 0 0.05)
     ++ OAgent (half_built 2)
        :: wiring Run.observations tt tt 0 (Run.config 256 1000 0 0.05) 2).
Proof.
  apply (division_error_comes_after_the_wiring Run.observations Run.accepts
           (Run.σ0 (Run.config 256 1000 0 0.05)) 0
           (Run.config 256 1000 0 0.05) tt tt ZeroDivisionError eq_refl).
  - by vm_compute.
  - repeat (apply Forall_cons; split; [reflexivity|]). apply Forall_nil_2.
Defined.


(** [epsilon] 0.05 and 0.9: the same construction. *)
Lemma epsilon_005_and_09_build_the_same :
  ∃ r σ',
    DQNFromConfig Run.observations Run.accepts tt tt 0
      (Run.σ0 (DQNConfig_init no_kwargs)) = (r, σ') ∧
    DQNFromConfig Run.observations Run.accepts tt tt 0
      (<[0 := OConfig (assign (set_epsilon 0.9) (DQNConfig_init no_kwargs))]>
         (Run.σ0 (DQNConfig_init no_kwargs)))
    = (r, <[0 := OConfig (assign (set_epsilon 0.9)
                            (DQNConfig_init no_kwargs))]> σ').
Proof.
  apply (epsilon_is_not_read_at_construction Run.observations Run.accepts
           (Run.σ0 (DQNConfig_init no_kwargs)) 0 (DQNConfig_init no_kwargs)
           (assign (set_epsilon 0.9) (DQNConfig_init no_kwargs)) tt tt
           eq_refl).
  by repeat split.
Defined.

(** The default record: the resulting configuration, with quotient 512. *)
Lemma default_resulting_configuration :
  ∃ q,
    truediv 256 0.5 = Ok q ∧
    agent_view
      (DQNFromConfig Run.observations Run.accepts tt tt 0
         (Run.σ0 (DQNConfig_init no_kwargs))).2 1
    = Some (configuration_of Run.observations tt tt
              (DQNConfig_init no_kwargs) q).
Proof.
  apply (resulting_configuration Run.observations Run.accepts
           (Run.σ0 (DQNConfig_init no_kwargs)) 0 (DQNConfig_init no_kwargs)
           tt tt 1 _ eq_refl).
  vm_compute. reflexivity.
Defined.


(** [DQN(batch_size=32, seed=7)]: the threshold is infinite. *)
Lemma legacy_run_never_clips :
  never_clips 1e-3%float
    (DQN Run.observations Run.accepts tt tt Run.kwargs []).2 0.
Proof.
  apply (legacy_agent_never_clips Run.observations Run.accepts [] tt tt
           Run.kwargs 0 _).
  vm_compute. reflexivity.
Defined.

